(** * pkg/builtin: the builtin tool registry and its five handlers

    A shallow embedding of [pkg/builtin/builtin.go].  Go strings are byte
    sequences, modelled by [string] (a list of 8-bit [ascii]); the calls the
    handlers make into the operating system and the HTTP client are nodes of
    a program tree ([IO]), answered by the environment; [json.Unmarshal] on a
    struct of string fields is modelled by [Json.Unmarshal]. *)

From Stdlib Require Import NArith ZArith Ascii String List Lia.
From stdpp Require Import base tactics option list gmap strings sorting pretty.

Local Open Scope string_scope.
Set Warnings "-register-all".

(** ** Bytes *)

Definition code (c : ascii) : N := N_of_ascii c.
Definition chr (n : N) : ascii := ascii_of_N n.

(** The double quote. *)
Definition dquote : ascii := "034"%char.

Definition in_range (lo hi : N) (c : ascii) : bool :=
  ((lo <=? code c) && (code c <=? hi))%N.

(** ** Errors

    Go's [error] values, as far as the handlers can return them.  A nil
    error is [None] of [option error]. *)
Inductive error :=
  | SyntaxError                  (* *json.SyntaxError, from checkValid; its
                                    message and offset are left out *)
  | UnmarshalTypeError (Value Field : string)
                                 (* *json.UnmarshalTypeError: the kind of JSON
                                    value met and the field it was meant for;
                                    the offset into the input is left out *)
  | Errorf (text : string)       (* the result of fmt.Errorf, with its text *)
  | External (text : string).    (* an error handed back by os, net/http or io *)

(** * encoding/json, restricted to what the handlers use

    [json.Unmarshal(data, &params)] first runs [checkValid] over the whole
    input (scanner.go) and only then decodes (decode.go).  The scanner is
    modelled by a tokenizer followed by a pushdown parser that accept the
    same language and build the value; the decoder then walks that value. *)
Module Json.

(** ** UTF-8 (unicode/utf8) *)

Definition RuneError : N := 65533.

(** [utf8.EncodeRune]. *)
Definition EncodeRune (r : N) : string :=
  if (r <=? 127)%N then String (chr r) ""
  else if (r <=? 2047)%N then
    String (chr (N.lor 192 (N.shiftr r 6)))
      (String (chr (N.lor 128 (N.land r 63))) "")
  else
    let r := if ((1114111 <? r) || ((55296 <=? r) && (r <=? 57343)))%N
             then RuneError else r in
    if (r <=? 65535)%N then
      String (chr (N.lor 224 (N.shiftr r 12)))
        (String (chr (N.lor 128 (N.land (N.shiftr r 6) 63)))
           (String (chr (N.lor 128 (N.land r 63))) ""))
    else
      String (chr (N.lor 240 (N.shiftr r 18)))
        (String (chr (N.lor 128 (N.land (N.shiftr r 12) 63)))
           (String (chr (N.lor 128 (N.land (N.shiftr r 6) 63)))
              (String (chr (N.lor 128 (N.land r 63))) ""))).

(** The [first] and [acceptRanges] tables of utf8.go: for a leading byte,
    the length of the sequence and the range allowed for the second byte;
    [None] for a byte that cannot start a multi-byte sequence. *)
Definition first (p0 : ascii) : option (nat * N * N) :=
  let c := code p0 in
  if (c <? 194)%N then None
  else if (c <=? 223)%N then Some (2%nat, 128%N, 191%N)
  else if (c =? 224)%N then Some (3%nat, 160%N, 191%N)
  else if (c <=? 236)%N then Some (3%nat, 128%N, 191%N)
  else if (c =? 237)%N then Some (3%nat, 128%N, 159%N)
  else if (c <=? 239)%N then Some (3%nat, 128%N, 191%N)
  else if (c =? 240)%N then Some (4%nat, 144%N, 191%N)
  else if (c <=? 243)%N then Some (4%nat, 128%N, 191%N)
  else if (c =? 244)%N then Some (4%nat, 128%N, 143%N)
  else None.

(** [utf8.DecodeRune] on a non-empty input: the rune and the number of bytes
    it takes.  An invalid or truncated sequence is [(RuneError, 1%nat)]. *)
Definition DecodeRune (p0 : ascii) (rest : string) : N * nat :=
  if (code p0 <? 128)%N then (code p0, 1%nat) else
  match first p0 with
  | None => (RuneError, 1%nat)
  | Some (sz, lo, hi) =>
    match rest with
    | String b1 rest1 =>
      if negb (in_range lo hi b1) then (RuneError, 1%nat)
      else if (sz <=? 2)%nat then
        (N.lor (N.shiftl (N.land (code p0) 31) 6) (N.land (code b1) 63), 2%nat)
      else
        match rest1 with
        | String b2 rest2 =>
          if negb (in_range 128 191 b2) then (RuneError, 1%nat)
          else if (sz <=? 3)%nat then
            (N.lor (N.shiftl (N.land (code p0) 15) 12)
               (N.lor (N.shiftl (N.land (code b1) 63) 6)
                  (N.land (code b2) 63)), 3%nat)
          else
            match rest2 with
            | String b3 _ =>
              if negb (in_range 128 191 b3) then (RuneError, 1%nat)
              else
                (N.lor (N.shiftl (N.land (code p0) 7) 18)
                   (N.lor (N.shiftl (N.land (code b1) 63) 12)
                      (N.lor (N.shiftl (N.land (code b2) 63) 6)
                         (N.land (code b3) 63))), 4%nat)
            | EmptyString => (RuneError, 1%nat)
            end
        | EmptyString => (RuneError, 1%nat)
        end
    | EmptyString => (RuneError, 1%nat)
    end
  end.

(** ** String literals (decode.go, [unquoteBytes] and [getu4]) *)

Definition hexval (c : ascii) : option N :=
  if in_range 48 57 c then Some (code c - 48)%N
  else if in_range 97 102 c then Some (code c - 97 + 10)%N
  else if in_range 65 70 c then Some (code c - 65 + 10)%N
  else None.

(** The four hex digits that follow a backslash and a [u]. *)
Definition getu4 (h1 h2 h3 h4 : ascii) : option N :=
  a ← hexval h1; b ← hexval h2; c ← hexval h3; d ← hexval h4;
  Some (((a * 16 + b) * 16 + c) * 16 + d)%N.

(** [utf16.IsSurrogate] and [utf16.DecodeRune]. *)
Definition IsSurrogate (r : N) : bool := ((55296 <=? r) && (r <? 57344))%N.

Definition utf16_DecodeRune (r1 r2 : N) : N :=
  if ((55296 <=? r1) && (r1 <? 56320) && (56320 <=? r2) && (r2 <? 57344))%N
  then (N.lor (N.shiftl (r1 - 55296) 10) (r2 - 56320) + 65536)%N
  else RuneError.

(** The byte an escape letter stands for. *)
Definition escape_byte (c : ascii) : option ascii :=
  if Ascii.eqb c dquote then Some dquote
  else if Ascii.eqb c "\" then Some "\"%char
  else if Ascii.eqb c "/" then Some "/"%char
  else if Ascii.eqb c "'" then Some "'"%char
  else if Ascii.eqb c "b" then Some (chr 8)
  else if Ascii.eqb c "f" then Some (chr 12)
  else if Ascii.eqb c "n" then Some (chr 10)
  else if Ascii.eqb c "r" then Some (chr 13)
  else if Ascii.eqb c "t" then Some (chr 9)
  else None.

(** The second half of a surrogate pair, read at the head of [s]:
    [getu4(s[r:])] after a first escape; [None] is Go's [-1]. *)
Definition next_u4 (s : string) : option N :=
  match s with
  | String b (String u (String g1 (String g2 (String g3 (String g4 _))))) =>
    if Ascii.eqb b "\" && Ascii.eqb u "u" then getu4 g1 g2 g3 g4 else None
  | _ => None
  end.

(** [unquoteBytes] on the inside of a literal (the text between the two
    quotes): escapes are replaced, a valid surrogate pair becomes one rune,
    a lone surrogate and every byte that is not part of well-formed UTF-8
    become U+FFFD.  [None] is Go's [ok = false]. *)
Fixpoint unquoteBytes (s : string) : option string :=
  match s with
  | EmptyString => Some ""
  | String c r =>
    if Ascii.eqb c "\" then
      match r with
      | EmptyString => None
      | String e r1 =>
        if Ascii.eqb e "u" then
          match r1 with
          | String h1 (String h2 (String h3 (String h4 r2))) =>
            match getu4 h1 h2 h3 h4 with
            | None => None
            | Some rr =>
              if IsSurrogate rr then
                let dec := match next_u4 r2 with
                           | Some rr1 => utf16_DecodeRune rr rr1
                           | None => RuneError
                           end in
                if negb (dec =? RuneError)%N then
                  match r2 with
                  | String _ (String _ (String _ (String _ (String _ (String _ r3))))) =>
                    t ← unquoteBytes r3; Some (EncodeRune dec +:+ t)
                  | _ => None
                  end
                else t ← unquoteBytes r2; Some (EncodeRune RuneError +:+ t)
              else t ← unquoteBytes r2; Some (EncodeRune rr +:+ t)
            end
          | _ => None
          end
        else
          match escape_byte e with
          | Some b => t ← unquoteBytes r1; Some (String b t)
          | None => None
          end
      end
    else if Ascii.eqb c dquote || (code c <? 32)%N then None
    else if (code c <? 128)%N then t ← unquoteBytes r; Some (String c t)
    else
      let '(rr, size) := DecodeRune c r in
      match size, r with
      | 2%nat, String _ r2 => t ← unquoteBytes r2; Some (EncodeRune rr +:+ t)
      | 3%nat, String _ (String _ r3) => t ← unquoteBytes r3; Some (EncodeRune rr +:+ t)
      | 4%nat, String _ (String _ (String _ r4)) => t ← unquoteBytes r4; Some (EncodeRune rr +:+ t)
      | _, _ => t ← unquoteBytes r; Some (EncodeRune rr +:+ t)
      end
  end.

(** ** The scanner (scanner.go)

    Tokens of the JSON grammar.  A string token carries the inside of the
    literal as written, a number token its text. *)
Inductive token :=
  | TLBrace | TRBrace | TLBrack | TRBrack | TColon | TComma
  | TStr (raw : string) | TNum (raw : string)
  | TTrue | TFalse | TNull.

(** States of the tokenizer, named after the scanner's step functions.
    The strings accumulated in a state are kept in reverse. *)
Inductive lstate :=
  | LValue                          (* between tokens *)
  | LInString (acc : string)        (* stateInString *)
  | LInStringEsc (acc : string)     (* stateInStringEsc *)
  | LInStringEscU (n : nat) (acc : string) (* n hex digits still to come *)
  | LNeg (acc : string)             (* stateNeg *)
  | L0 (acc : string)               (* state0 *)
  | L1 (acc : string)               (* state1 *)
  | LDot (acc : string)             (* stateDot *)
  | LDot0 (acc : string)            (* stateDot0 *)
  | LE (acc : string)               (* stateE *)
  | LESign (acc : string)           (* stateESign *)
  | LE0 (acc : string)              (* stateE0 *)
  | LLit (rest : string) (t : token). (* inside true, false or null *)

(** [isSpace]. *)
Definition isSpace (c : ascii) : bool :=
  ((code c =? 32) || (code c =? 9) || (code c =? 13) || (code c =? 10))%N.

Definition is_digit (c : ascii) : bool := in_range 48 57 c.
Definition is_digit19 (c : ascii) : bool := in_range 49 57 c.
Definition is_hex (c : ascii) : bool :=
  in_range 48 57 c || in_range 97 102 c || in_range 65 70 c.

(** A byte met between tokens ([stateBeginValue], and the punctuation
    read by [stateEndValue]): the next state and the tokens it completes. *)
Definition lex_begin (c : ascii) : option (lstate * list token) :=
  if isSpace c then Some (LValue, [])
  else if Ascii.eqb c "{" then Some (LValue, [TLBrace])
  else if Ascii.eqb c "}" then Some (LValue, [TRBrace])
  else if Ascii.eqb c "[" then Some (LValue, [TLBrack])
  else if Ascii.eqb c "]" then Some (LValue, [TRBrack])
  else if Ascii.eqb c ":" then Some (LValue, [TColon])
  else if Ascii.eqb c "," then Some (LValue, [TComma])
  else if Ascii.eqb c dquote then Some (LInString "", [])
  else if Ascii.eqb c "-" then Some (LNeg (String c ""), [])
  else if Ascii.eqb c "0" then Some (L0 (String c ""), [])
  else if is_digit19 c then Some (L1 (String c ""), [])
  else if Ascii.eqb c "t" then Some (LLit "rue" TTrue, [])
  else if Ascii.eqb c "f" then Some (LLit "alse" TFalse, [])
  else if Ascii.eqb c "n" then Some (LLit "ull" TNull, [])
  else None.

(** A number ends at byte [c], which is then read as the byte after a
    value. *)
Definition lex_end_number (acc : string) (c : ascii) : option (lstate * list token) :=
  '(st, ts) ← lex_begin c; Some (st, TNum (String.rev acc) :: ts).

Definition is_e (c : ascii) : bool := Ascii.eqb c "e" || Ascii.eqb c "E".

(** One byte of input. [None] is a syntax error. *)
Definition lex_step (st : lstate) (c : ascii) : option (lstate * list token) :=
  match st with
  | LValue => lex_begin c
  | LInString acc =>
    if Ascii.eqb c dquote then Some (LValue, [TStr (String.rev acc)])
    else if Ascii.eqb c "\" then Some (LInStringEsc (String c acc), [])
    else if (code c <? 32)%N then None
    else Some (LInString (String c acc), [])
  | LInStringEsc acc =>
    if Ascii.eqb c "b" || Ascii.eqb c "f" || Ascii.eqb c "n" || Ascii.eqb c "r"
       || Ascii.eqb c "t" || Ascii.eqb c "\" || Ascii.eqb c "/" || Ascii.eqb c dquote
    then Some (LInString (String c acc), [])
    else if Ascii.eqb c "u" then Some (LInStringEscU 4 (String c acc), [])
    else None
  | LInStringEscU n acc =>
    if is_hex c then
      match n with
      | S (S n') => Some (LInStringEscU (S n') (String c acc), [])
      | _ => Some (LInString (String c acc), [])
      end
    else None
  | LNeg acc =>
    if Ascii.eqb c "0" then Some (L0 (String c acc), [])
    else if is_digit19 c then Some (L1 (String c acc), [])
    else None
  | L1 acc =>
    if is_digit c then Some (L1 (String c acc), [])
    else if Ascii.eqb c "." then Some (LDot (String c acc), [])
    else if is_e c then Some (LE (String c acc), [])
    else lex_end_number acc c
  | L0 acc =>
    if Ascii.eqb c "." then Some (LDot (String c acc), [])
    else if is_e c then Some (LE (String c acc), [])
    else lex_end_number acc c
  | LDot acc =>
    if is_digit c then Some (LDot0 (String c acc), []) else None
  | LDot0 acc =>
    if is_digit c then Some (LDot0 (String c acc), [])
    else if is_e c then Some (LE (String c acc), [])
    else lex_end_number acc c
  | LE acc =>
    if Ascii.eqb c "+" || Ascii.eqb c "-" then Some (LESign (String c acc), [])
    else if is_digit c then Some (LE0 (String c acc), [])
    else None
  | LESign acc =>
    if is_digit c then Some (LE0 (String c acc), []) else None
  | LE0 acc =>
    if is_digit c then Some (LE0 (String c acc), [])
    else lex_end_number acc c
  | LLit rest t =>
    match rest with
    | String r rest' =>
      if Ascii.eqb c r then
        match rest' with
        | EmptyString => Some (LValue, [t])
        | _ => Some (LLit rest' t, [])
        end
      else None
    | EmptyString => None
    end
  end.

(** The end of the input ([scanner.eof]): only between tokens, or in a
    number that is complete. *)
Definition lex_eof (st : lstate) : option (list token) :=
  match st with
  | LValue => Some []
  | L0 acc | L1 acc | LDot0 acc | LE0 acc => Some [TNum (String.rev acc)]
  | _ => None
  end.

Fixpoint lex (st : lstate) (s : string) : option (list token) :=
  match s with
  | EmptyString => lex_eof st
  | String c s' =>
    '(st', ts) ← lex_step st c;
    rest ← lex st' s';
    Some (ts ++ rest)%list
  end.

(** ** Values *)

Inductive json :=
  | JNull
  | JBool (b : bool)
  | JNumber (raw : string)
  | JString (s : string)
  | JArray (elems : list json)
  | JObject (members : list (string * json)).

(** The parser's stack ([scanner.parseState]), holding what has been read
    of each open array and object, in reverse; an object frame also holds
    the key whose value is being read. *)
Inductive frame :=
  | FArr (elems : list json)
  | FObj (members : list (string * json)) (key : string).

Inductive pstate :=
  | PValue        (* a value must come *)
  | PArrFirst     (* after [: a value or ] *)
  | PObjFirst     (* after {: a key or } *)
  | PObjKey       (* after a comma in an object: a key *)
  | PColon        (* after a key *)
  | PArrNext      (* after an array element: a comma or ] *)
  | PObjNext      (* after an object member: a comma or } *)
  | PDone (v : json). (* the top-level value is complete *)

Definition maxNestingDepth : N := 10000.

(** [pushParseState]: one more open array or object. *)
Definition push (f : frame) (stk : list frame) (st : pstate)
  : option (pstate * list frame) :=
  if (N.of_nat (length (f :: stk)) <=? maxNestingDepth)%N
  then Some (st, f :: stk) else None.

(** A value is complete: it is the top-level value or goes into the
    innermost open array or object. *)
Definition complete (v : json) (stk : list frame) : pstate * list frame :=
  match stk with
  | [] => (PDone v, [])
  | FArr es :: stk' => (PArrNext, FArr (v :: es) :: stk')
  | FObj ms k :: stk' => (PObjNext, FObj ((k, v) :: ms) k :: stk')
  end.

Definition parse_value (t : token) (stk : list frame)
  : option (pstate * list frame) :=
  match t with
  | TLBrace => push (FObj [] "") stk PObjFirst
  | TLBrack => push (FArr []) stk PArrFirst
  | TStr raw => s ← unquoteBytes raw; Some (complete (JString s) stk)
  | TNum raw => Some (complete (JNumber raw) stk)
  | TTrue => Some (complete (JBool true) stk)
  | TFalse => Some (complete (JBool false) stk)
  | TNull => Some (complete JNull stk)
  | _ => None
  end.

Definition parse_key (t : token) (stk : list frame)
  : option (pstate * list frame) :=
  match t, stk with
  | TStr raw, FObj ms _ :: stk' =>
    k ← unquoteBytes raw; Some (PColon, FObj ms k :: stk')
  | _, _ => None
  end.

Definition parse_step (st : pstate) (stk : list frame) (t : token)
  : option (pstate * list frame) :=
  match st with
  | PValue => parse_value t stk
  | PArrFirst =>
    match t, stk with
    | TRBrack, FArr es :: stk' => Some (complete (JArray (reverse es)) stk')
    | _, _ => parse_value t stk
    end
  | PObjFirst =>
    match t, stk with
    | TRBrace, FObj ms _ :: stk' => Some (complete (JObject (reverse ms)) stk')
    | _, _ => parse_key t stk
    end
  | PObjKey => parse_key t stk
  | PColon => match t with TColon => Some (PValue, stk) | _ => None end
  | PArrNext =>
    match t, stk with
    | TComma, _ => Some (PValue, stk)
    | TRBrack, FArr es :: stk' => Some (complete (JArray (reverse es)) stk')
    | _, _ => None
    end
  | PObjNext =>
    match t, stk with
    | TComma, _ => Some (PObjKey, stk)
    | TRBrace, FObj ms _ :: stk' => Some (complete (JObject (reverse ms)) stk')
    | _, _ => None
    end
  | PDone _ => None
  end.

Fixpoint parse_tokens (st : pstate) (stk : list frame) (ts : list token)
  : option json :=
  match ts with
  | [] => match st with PDone v => Some v | _ => None end
  | t :: ts' =>
    '(st', stk') ← parse_step st stk t;
    parse_tokens st' stk' ts'
  end.

(** The value a whole input denotes; [None] where [checkValid] fails. *)
Definition parse (input : string) : option json :=
  ts ← lex LValue input; parse_tokens PValue [] ts.

(** ** Field names (fold.go)

    [foldRune] gives the smallest rune of a simple-folding orbit.  The two
    orbits that hold both ASCII and other runes are those of S (with U+017F)
    and K (with U+212A); every other rune above U+007F folds to a rune above
    U+007F and is left as it is here, which never changes whether a key
    matches one of the handlers' field names, all of them ASCII. *)
Definition foldRune (r : N) : N :=
  if (r =? 383)%N then 83%N else if (r =? 8490)%N then 75%N else r.

Definition upper (c : ascii) : ascii :=
  if in_range 97 122 c then chr (code c - 32) else c.

(** [foldName] ([appendFoldedName]). *)
Fixpoint foldName (s : string) : string :=
  match s with
  | EmptyString => ""
  | String c r =>
    if (code c <? 128)%N then String (upper c) (foldName r)
    else
      let '(rr, size) := DecodeRune c r in
      match size, r with
      | 2%nat, String _ r2 => EncodeRune (foldRune rr) +:+ foldName r2
      | 3%nat, String _ (String _ r3) => EncodeRune (foldRune rr) +:+ foldName r3
      | 4%nat, String _ (String _ (String _ r4)) => EncodeRune (foldRune rr) +:+ foldName r4
      | _, _ => EncodeRune (foldRune rr) +:+ foldName r
      end
  end.

(** The struct field a key of the input is stored into ([decodeState.object]):
    the field of that exact name, else the first field equal to the key
    under folding.  Fields are named by their JSON names. *)
Definition find_field (fields : list string) (key : string) : option string :=
  match List.find (String.eqb key) fields with
  | Some f => Some f
  | None => List.find (fun f => String.eqb (foldName f) (foldName key)) fields
  end.

(** ** The decoder (decode.go), into a struct whose fields are all strings *)

(** The name of a value's kind in an [UnmarshalTypeError]. *)
Definition kind (v : json) : string :=
  match v with
  | JNull => "null"
  | JBool _ => "bool"
  | JNumber _ => "number"
  | JString _ => "string"
  | JArray _ => "array"
  | JObject _ => "object"
  end.

(** The struct being filled, as the map of the fields written so far (the
    others hold the zero value), and the first error met. *)
Record decodeState := {
  params : gmap string string;
  savedError : option error;
}.

(** [decodeState.saveError] keeps the first error. *)
Definition saveError (e : error) (d : decodeState) : decodeState :=
  match savedError d with
  | None => {| params := params d; savedError := Some e |}
  | Some _ => d
  end.

(** A value met for string field [f]: a string is stored, null leaves the
    field alone, anything else is a type error and decoding goes on. *)
Definition store (f : string) (v : json) (d : decodeState) : decodeState :=
  match v with
  | JString s => {| params := <[f := s]> (params d); savedError := savedError d |}
  | JNull => d
  | _ => saveError (UnmarshalTypeError (kind v) f) d
  end.

(** One member of an object: stored if its key finds a field, skipped
    otherwise. *)
Definition member (fields : list string) (d : decodeState) (m : string * json)
  : decodeState :=
  match find_field fields m.1 with
  | Some f => store f m.2 d
  | None => d
  end.

Definition object (fields : list string) (ms : list (string * json))
  (d : decodeState) : decodeState :=
  fold_left (member fields) ms d.

(** The top-level value, decoded into the struct. *)
Definition value (fields : list string) (v : json) (d : decodeState)
  : decodeState :=
  match v with
  | JObject ms => object fields ms d
  | JNull => d
  | _ => saveError (UnmarshalTypeError (kind v) "") d
  end.

(** [json.Unmarshal([]byte(input), &params)] where [params] is a
    zero-valued struct with the string fields [fields]: the struct after the
    call and the error returned. *)
Definition Unmarshal (fields : list string) (input : string)
  : gmap string string * option error :=
  match parse input with
  | None => (∅, Some SyntaxError)
  | Some v =>
    let d := value fields v {| params := ∅; savedError := None |} in
    (params d, savedError d)
  end.

End Json.

(** A field of a decoded struct; a field never written holds the zero
    value. *)
Definition field (params : gmap string string) (name : string) : string :=
  default "" (params !! name).

(** * The environment

    What the handlers call outside the package: the logger, [os], [net/http]
    and [io].  A handler is a tree of such calls; each node waits for the
    environment's answer. *)

(** [context.Context] and the body of an HTTP response are opaque to the
    handlers, which only pass them on. *)
Inductive Context := mkContext (id : nat).
Inductive ReadCloser := mkBody (id : nat).

(** [http.Request] and [http.Response], with the fields the handlers touch. *)
Record Request := {
  req_ctx : Context;
  Method : string;
  req_URL : string;
  req_Body : string;
  Header : gmap string (list string);
}.

Record Response := {
  Status : string;      (* e.g. 200 OK *)
  StatusCode : Z;       (* e.g. 200 *)
  Body : ReadCloser;
}.

(** [req.Header.Set(key, value)]. *)
Definition Header_Set (key value : string) (req : Request) : Request :=
  {| req_ctx := req_ctx req; Method := Method req; req_URL := req_URL req;
     req_Body := req_Body req; Header := <[key := [value]]> (Header req) |}.

(** The calls, indexed by the type of their result.  A Go result
    [(x, err)] whose [x] is only used when [err] is nil is a sum. *)
Inductive event : Type → Type :=
  | LogDebugf (format : string) (args : list string) : event unit
  | OsReadFile (name : string) : event (string * option error)
  | OsWriteFile (name data : string) (perm : N) : event (option error)
  | HttpGet (url : string) : event (Response + error)
  | HttpNewRequestWithContext (ctx : Context) (method url body : string)
    : event (Request + error)   (* whether the URL parses is not modelled *)
  | HttpDo (req : Request) : event (Response + error)
  | IoReadAll (r : ReadCloser) : event (string * option error)
  | BodyClose (r : ReadCloser) : event (option error).

Inductive IO (A : Type) : Type :=
  | Ret (a : A)
  | Vis {X : Type} (e : event X) (k : X → IO A).
Arguments Ret {A} a.
Arguments Vis {A X} e k.

Fixpoint bind {A B : Type} (p : IO A) (f : A → IO B) : IO B :=
  match p with
  | Ret a => f a
  | Vis e k => Vis e (fun x => bind (k x) f)
  end.

Definition call {X : Type} (e : event X) : IO X := Vis e Ret.

#[global] Instance IO_ret : MRet IO := @Ret.
#[global] Instance IO_bind : MBind IO := fun A B f p => bind p f.

(** [defer r.Close()] around the rest of a function: the body is closed
    once the results are known, and what [Close] returns is dropped. *)
Definition defer_Close {A : Type} (r : ReadCloser) (p : IO A) : IO A :=
  bind p (fun a => Vis (BodyClose r) (fun _ => Ret a)).

(** ** Runs

    One call as seen from outside, with the answer the environment gave. *)
Inductive obs :=
  | ObsLogDebugf (format : string) (args : list string)
  | ObsReadFile (name data : string) (err : option error)
  | ObsWriteFile (name data : string) (perm : N) (err : option error)
  | ObsHttpGet (url : string) (res : Response + error)
  | ObsNewRequest (ctx : Context) (method url body : string) (res : Request + error)
  | ObsDo (req : Request) (res : Response + error)
  | ObsReadAll (r : ReadCloser) (data : string) (err : option error)
  | ObsClose (r : ReadCloser) (err : option error).

Definition observe {X : Type} (e : event X) : X → obs :=
  match e in event X return X → obs with
  | LogDebugf f a => fun _ => ObsLogDebugf f a
  | OsReadFile n => fun x => ObsReadFile n x.1 x.2
  | OsWriteFile n d p => fun x => ObsWriteFile n d p x
  | HttpGet u => fun x => ObsHttpGet u x
  | HttpNewRequestWithContext c m u b => fun x => ObsNewRequest c m u b x
  | HttpDo r => fun x => ObsDo r x
  | IoReadAll r => fun x => ObsReadAll r x.1 x.2
  | BodyClose r => fun x => ObsClose r x
  end.

(** [runs p t a]: program [p] can make exactly the calls of [t], be given
    the answers of [t], and return [a]. *)
Fixpoint runs {A : Type} (p : IO A) (t : list obs) (a : A) : Prop :=
  match p with
  | Ret a' => t = [] ∧ a' = a
  | Vis e k =>
    match t with
    | [] => False
    | o :: t' => ∃ x, o = observe e x ∧ runs (k x) t' a
    end
  end.

(** A local filesystem nobody else writes to: [fs_trace m t] says that the
    file operations of [t] are those of a filesystem in which the files of
    [m] hold the content [m] gives them.  A write that succeeded is read
    back; after a write that failed the content of that file is not
    known; about the other files nothing is said. *)
Fixpoint fs_trace (m : gmap string string) (t : list obs) : Prop :=
  match t with
  | [] => True
  | ObsWriteFile n d _ None :: t' => fs_trace (<[n := d]> m) t'
  | ObsWriteFile n _ _ (Some _) :: t' => fs_trace (delete n m) t'
  | ObsReadFile n d err :: t' =>
    (∀ c, m !! n = Some c → d = c ∧ err = None) ∧ fs_trace m t'
  | _ :: t' => fs_trace m t'
  end.

(** ** Formatting and searching strings *)

(** The verb [%d] of [fmt] on a length. *)
Definition fmt_d (n : nat) : string := pretty n.

(** [strings.Contains s sub]. *)
Definition Contains (s sub : string) : Prop :=
  ∃ pre post, s = pre +:+ sub +:+ post.

(** Inputs are written with apostrophes where JSON has double quotes. *)
Fixpoint text (s : string) : string :=
  match s with
  | EmptyString => ""
  | String c r => String (if Ascii.eqb c "'" then dquote else c) (text r)
  end.

(** * Package [types] *)

(** [types.BuiltinFunc], the type of a handler:
    [func(ctx context.Context, env []string, input string) (string, error)]. *)
Definition Handler : Type :=
  Context → list string → string → IO (string * option error).

(** Modelled from the spec: [types.JSONSchema] and [types.ObjectSchema] are
    declared in package [types], outside this file.  The spec has Arguments
    be a schema object describing named string parameters and their
    descriptions: here the list of the names with their descriptions, built
    from the alternating arguments of [ObjectSchema]. *)
Definition JSONSchema : Type := list (string * string).

Fixpoint ObjectSchema (kv : list string) : JSONSchema :=
  match kv with
  | k :: v :: kv' => (k, v) :: ObjectSchema kv'
  | _ => []
  end.

(** Modelled from the spec: [types.Tool] is declared in package [types],
    outside this file.  These are the fields the spec's tool descriptor
    lists, under the names [builtin.go] uses for them; [Arguments] is a
    pointer and [BuiltinFunc] a function value, nil being [None]. *)
Record Tool := {
  Name : string;
  ID : string;
  Instructions : string;
  Description : string;
  Arguments : option JSONSchema;
  BuiltinFunc : option Handler;
}.

(** The zero value of [types.Tool]. *)
Definition zero_Tool : Tool :=
  {| Name := ""; ID := ""; Instructions := ""; Description := "";
     Arguments := None; BuiltinFunc := None |}.

(** * Package [builtin] *)

(** ** The handlers *)

Definition SysRead : Handler := fun ctx env input =>
  let '(params, err) := Json.Unmarshal ["filename"] input in
  match err with
  | Some err => Ret ("", Some err)
  | None =>
    let Filename := field params "filename" in
    _ ← call (LogDebugf "Reading file %s" [Filename]);
    '(data, err) ← call (OsReadFile Filename);
    match err with
    | Some err => Ret ("", Some err)
    | None => Ret (data, None)
    end
  end.

Definition SysWrite : Handler := fun ctx env input =>
  let '(params, err) := Json.Unmarshal ["filename"; "content"] input in
  match err with
  | Some err => Ret ("", Some err)
  | None =>
    let Filename := field params "filename" in
    let Content := field params "content" in
    let data := Content in
    let msg := "Wrote " +:+ fmt_d (String.length data)
               +:+ " bytes to file " +:+ Filename in
    _ ← call (LogDebugf msg []);
    err ← call (OsWriteFile Filename data 420);
    Ret ("", err)
  end.

Definition SysHTTPGet : Handler := fun ctx env input =>
  let '(params, err) := Json.Unmarshal ["url"] input in
  match err with
  | Some err => Ret ("", Some err)
  | None =>
    let URL := field params "url" in
    _ ← call (LogDebugf "http get %s" [URL]);
    res ← call (HttpGet URL);
    match res with
    | inr err => Ret ("", Some err)
    | inl resp =>
      defer_Close (Body resp)
        (if negb (StatusCode resp =? 200)%Z then
           Ret ("", Some (Errorf ("failed to download " +:+ URL +:+ ": "
                                  +:+ Status resp)))
         else
           '(data, err) ← call (IoReadAll (Body resp));
           match err with
           | Some err => Ret ("", Some err)
           | None => Ret (data, None)
           end)
    end
  end.

Definition SysHTTPPost : Handler := fun ctx env input =>
  let '(params, err) := Json.Unmarshal ["url"; "content"; "contentType"] input in
  match err with
  | Some err => Ret ("", Some err)
  | None =>
    let URL := field params "url" in
    let Content := field params "content" in
    let ContentType := field params "contentType" in
    res ← call (HttpNewRequestWithContext ctx "POST" URL Content);
    match res with
    | inr err => Ret ("", Some err)
    | inl req =>
      let req := if negb (String.eqb ContentType "")
                 then Header_Set "Content-Type" ContentType req else req in
      res ← call (HttpDo req);
      match res with
      | inr err => Ret ("", Some err)
      | inl resp =>
        defer_Close (Body resp)
          (_ ← call (IoReadAll (Body resp));
           if (399 <? StatusCode resp)%Z then
             Ret ("", Some (Errorf ("failed to post " +:+ URL +:+ ": "
                                    +:+ Status resp)))
           else
             Ret ("Wrote " +:+ fmt_d (String.length Content) +:+ " to " +:+ URL,
                  None))
      end
    end
  end.

Definition SysAbort : Handler := fun ctx env input =>
  let '(params, err) := Json.Unmarshal ["message"] input in
  match err with
  | Some err => Ret ("", Some err)
  | None => Ret ("", Some (Errorf ("ABORT: " +:+ field params "message")))
  end.

(** ** The registry *)

Definition Tools : gmap string Tool :=
  list_to_map [
    ("sys.read",
     {| Name := ""; ID := ""; Instructions := "";
        Description := "Reads the contents of a file";
        Arguments := Some (ObjectSchema
          ["filename"; "The name of the file to read"]);
        BuiltinFunc := Some SysRead |});
    ("sys.write",
     {| Name := ""; ID := ""; Instructions := "";
        Description := "Write the contents to a file";
        Arguments := Some (ObjectSchema
          ["filename"; "The name of the file to write to";
           "content"; "The content to write"]);
        BuiltinFunc := Some SysWrite |});
    ("sys.http.get",
     {| Name := ""; ID := ""; Instructions := "";
        Description := "Download the contents of a http or https URL";
        Arguments := Some (ObjectSchema
          ["url"; "The URL to download"]);
        BuiltinFunc := Some SysHTTPGet |});
    ("sys.abort",
     {| Name := ""; ID := ""; Instructions := "";
        Description := "Aborts execution";
        Arguments := Some (ObjectSchema
          ["message"; "The description of the error or unexpected result that caused abort to be called"]);
        BuiltinFunc := Some SysAbort |});
    ("sys.http.post",
     {| Name := ""; ID := ""; Instructions := "";
        Description := "Write contents to a http or https URL using the POST method";
        Arguments := Some (ObjectSchema
          ["url"; "The URL to POST to";
           "content"; "The content to POST";
           "contentType"; text "The 'content type' of the content such as application/json or text/plain"]);
        BuiltinFunc := Some SysHTTPPost |})
  ].

(** [t, ok := m[name]]: the zero value when the key is absent. *)
Definition map_index (m : gmap string Tool) (name : string) : Tool * bool :=
  match m !! name with
  | Some t => (t, true)
  | None => (zero_Tool, false)
  end.

Definition Builtin (name : string) : Tool * bool :=
  let '(t, ok) := map_index Tools name in
  ({| Name := name; ID := name; Instructions := "#!" +:+ name;
      Description := Description t; Arguments := Arguments t;
      BuiltinFunc := BuiltinFunc t |}, ok).

(** [sort.Strings]: ascending, bytes compared as numbers.  The order is
    total and antisymmetric, so every sorting algorithm gives this list. *)
Definition sort_Strings (keys : list string) : list string :=
  merge_sort String.le keys.

(** [for k := range Tools] visits the keys once each, in an order Go does
    not fix: [range_of m keys] says that [keys] is such an order. *)
Definition range_of (m : gmap string Tool) (keys : list string) : Prop :=
  keys ≡ₚ (map_to_list m).*1.

(** [ListTools], after the range loop has collected [keys]. *)
Definition ListTools (keys : list string) : list Tool :=
  (fun key => (Builtin key).1) <$> sort_Strings keys.

(** ** Inputs that leave fields out or bring fields of their own *)

(** Key [key] names field [f], letter case aside. *)
Definition names (f key : string) : bool :=
  String.eqb (Json.foldName f) (Json.foldName key).

(** Key [key] names one of [fields], letter case aside. *)
Definition names_field (fields : list string) (key : string) : bool :=
  existsb (fun f => names f key) fields.

(** No member of the object names field [f]. *)
Definition omits (ms : list (string * Json.json)) (f : string) : bool :=
  forallb (fun m => negb (names f m.1)) ms.

(** No member of the object has exactly the name [f]. *)
Definition omits_exact (ms : list (string * Json.json)) (f : string) : bool :=
  forallb (fun m => negb (String.eqb m.1 f)) ms.

(** A value a string field takes without a type error. *)
Definition storable (v : Json.json) : bool :=
  match v with
  | Json.JString _ | Json.JNull => true
  | _ => false
  end.

(** Every member that names one of [fields] has a value the field takes. *)
Definition well_typed (fields : list string) (ms : list (string * Json.json)) : bool :=
  forallb (fun m => negb (names_field fields m.1) || storable m.2) ms.

(** The object without the members that name none of [fields], first with
    letter case set aside, then with the names compared as they are. *)
Definition strip (fields : list string) (ms : list (string * Json.json))
  : list (string * Json.json) :=
  List.filter (fun m => names_field fields m.1) ms.

Definition strip_exact (fields : list string) (ms : list (string * Json.json))
  : list (string * Json.json) :=
  List.filter (fun m => existsb (String.eqb m.1) fields) ms.

(** ** Shapes of results, for the statements below *)

(** The result of a read, from what [os.ReadFile] or [io.ReadAll] gave. *)
Definition read_result (data : string) (err : option error)
  : string * option error :=
  match err with
  | Some err => ("", Some err)
  | None => (data, None)
  end.

(** The request sent: the one [http.NewRequestWithContext] made, with the
    content type set when one is given. *)
Definition with_ContentType (ContentType : string) (req : Request) : Request :=
  if negb (String.eqb ContentType "")
  then Header_Set "Content-Type" ContentType req else req.

(** What [SysHTTPPost] returns once the response is there. *)
Definition post_result (URL Content : string) (resp : Response)
  : string * option error :=
  if (399 <? StatusCode resp)%Z then
    ("", Some (Errorf ("failed to post " +:+ URL +:+ ": " +:+ Status resp)))
  else
    ("Wrote " +:+ fmt_d (String.length Content) +:+ " to " +:+ URL, None).

(** Program [p] makes no call and returns error [e] with an empty result. *)
Definition fails_without_calls (p : IO (string * option error)) (e : error)
  : Prop :=
  ∀ t r, runs p t r ↔ t = [] ∧ r = ("", Some e).

(** ** Sample values, for the examples below *)

Definition ctx0 : Context := mkContext 0.

Definition resp_ok : Response :=
  {| Status := "200 OK"; StatusCode := 200; Body := mkBody 1 |}.

Definition resp_missing : Response :=
  {| Status := "404 Not Found"; StatusCode := 404; Body := mkBody 2 |}.

Definition get_input : string := text "{'url':'http://example.com/a'}".

Definition get_trace_ok : list obs :=
  [ObsLogDebugf "http get %s" ["http://example.com/a"];
   ObsHttpGet "http://example.com/a" (inl resp_ok);
   ObsReadAll (mkBody 1) "hello" None; ObsClose (mkBody 1) None].

Definition get_trace_missing : list obs :=
  [ObsLogDebugf "http get %s" ["http://example.com/a"];
   ObsHttpGet "http://example.com/a" (inl resp_missing);
   ObsClose (mkBody 2) None].

Definition post_input : string :=
  text "{'url':'http://example.com/p','content':'hello','contentType':'text/plain'}".

Definition req0 : Request :=
  {| req_ctx := ctx0; Method := "POST"; req_URL := "http://example.com/p";
     req_Body := "hello"; Header := ∅ |}.

Definition resp_bad : Response :=
  {| Status := "400 Bad Request"; StatusCode := 400; Body := mkBody 3 |}.

Definition post_trace (resp : Response) : list obs :=
  [ObsNewRequest ctx0 "POST" "http://example.com/p" "hello" (inl req0);
   ObsDo (Header_Set "Content-Type" "text/plain" req0) (inl resp);
   ObsReadAll (Body resp) "thanks" None; ObsClose (Body resp) None].

Definition write_input : string :=
  text "{'filename':'/tmp/t.txt','content':'hello'}".

Definition read_input : string := text "{'filename':'/tmp/t.txt'}".

Definition write_trace : list obs :=
  [ObsLogDebugf "Wrote 5 bytes to file /tmp/t.txt" [];
   ObsWriteFile "/tmp/t.txt" "hello" 420 None].

Definition read_trace (data : string) : list obs :=
  [ObsLogDebugf "Reading file %s" ["/tmp/t.txt"];
   ObsReadFile "/tmp/t.txt" data None].

Definition content_only_input : string := text "{'content':'x'}".

Definition shout_only_input : string := text "{'FILENAME':'x'}".

Definition read_x_trace : list obs :=
  [ObsLogDebugf "Reading file %s" ["x"]; ObsReadFile "x" "data" None].

Definition read_empty_trace : list obs :=
  [ObsLogDebugf "Reading file %s" [""]; ObsReadFile "" "data" None].

Definition noted_input : string :=
  text "{'filename':'a','note':'n','depth':[1,{}]}".

Definition plain_input : string := text "{'filename':'a'}".

Definition shouted_input : string := text "{'filename':'a','FILENAME':'b'}".

Definition shouted_members : list (string * Json.json) :=
  [("filename", Json.JString "a"); ("FILENAME", Json.JString "b")].

Definition read_b_trace : list obs :=
  [ObsLogDebugf "Reading file %s" ["b"]; ObsReadFile "b" "x" None].

(** ** The registry and the handlers, side by side *)

(** The names of the registry in ascending order. *)
Definition sorted_names : list string :=
  ["sys.abort"; "sys.http.get"; "sys.http.post"; "sys.read"; "sys.write"].

(** Each handler with the JSON names of the fields of its [params]. *)
Definition handler_table : list (Handler * list string) :=
  [(SysRead, ["filename"]);
   (SysWrite, ["filename"; "content"]);
   (SysHTTPGet, ["url"]);
   (SysHTTPPost, ["url"; "content"; "contentType"]);
   (SysAbort, ["message"])].

(** ** Kinds of calls *)

Definition is_log (o : obs) : bool :=
  match o with ObsLogDebugf _ _ => true | _ => false end.

Definition is_read (o : obs) : bool :=
  match o with ObsReadFile _ _ _ => true | _ => false end.

Definition is_write (o : obs) : bool :=
  match o with ObsWriteFile _ _ _ _ => true | _ => false end.

(** A call into [os]. *)
Definition is_file_call (o : obs) : bool := is_read o || is_write o.

(** A request put on the network. *)
Definition is_request (o : obs) : bool :=
  match o with ObsHttpGet _ _ | ObsDo _ _ => true | _ => false end.

Definition is_close (o : obs) : bool :=
  match o with ObsClose _ _ => true | _ => false end.

(** A call on the body of a response. *)
Definition is_body_call (o : obs) : bool :=
  match o with ObsReadAll _ _ _ | ObsClose _ _ => true | _ => false end.

(** A call into [net/http] or on what it returned. *)
Definition is_net_call (o : obs) : bool :=
  match o with
  | ObsHttpGet _ _ | ObsNewRequest _ _ _ _ _ | ObsDo _ _ => true
  | _ => is_body_call o
  end.

(** The number of calls of a kind in a run. *)
Definition count (kind : obs → bool) (t : list obs) : nat :=
  length (List.filter kind t).

(** ** Two entries of the registry *)

Definition read_tool : Tool :=
  {| Name := ""; ID := ""; Instructions := "";
     Description := "Reads the contents of a file";
     Arguments := Some (ObjectSchema
       ["filename"; "The name of the file to read"]);
     BuiltinFunc := Some SysRead |}.

Definition get_tool : Tool :=
  {| Name := ""; ID := ""; Instructions := "";
     Description := "Download the contents of a http or https URL";
     Arguments := Some (ObjectSchema ["url"; "The URL to download"]);
     BuiltinFunc := Some SysHTTPGet |}.

Definition resp_created : Response :=
  {| Status := "201 Created"; StatusCode := 201; Body := mkBody 4 |}.


(** ** Blanks *)

(** A string of JSON white space only. *)
Fixpoint blank (s : string) : bool :=
  match s with
  | EmptyString => true
  | String c r => Json.isSpace c && blank r
  end.



(** ** What an object assigns *)



(** ** Objects written out *)

(** A byte that stands for itself inside a JSON string literal: printable
    ASCII other than the double quote and the backslash. *)
Definition plain_char (c : ascii) : bool :=
  (32 <=? code c)%N && (code c <? 128)%N
  && negb (Ascii.eqb c dquote) && negb (Ascii.eqb c "\").

Fixpoint plain (s : string) : bool :=
  match s with
  | EmptyString => true
  | String c r => plain_char c && plain r
  end.

(** The literal for a plain string: the string between double quotes. *)
Definition quoted (s : string) : string :=
  String dquote (s +:+ String dquote "").

(** The text of an object whose names and values are plain strings:
    name, colon, value, with commas between the members. *)
Fixpoint members_text (ms : list (string * string)) : string :=
  match ms with
  | [] => ""
  | m :: ms' =>
    quoted m.1 +:+ ":" +:+ quoted m.2
    +:+ match ms' with [] => "" | _ :: _ => "," +:+ members_text ms' end
  end.

Definition object_text (ms : list (string * string)) : string :=
  "{" +:+ members_text ms +:+ "}".

Fixpoint member_tokens (ms : list (string * string)) : list Json.token :=
  match ms with
  | [] => []
  | m :: ms' =>
    Json.TStr m.1 :: Json.TColon :: Json.TStr m.2
    :: match ms' with [] => [] | _ :: _ => Json.TComma :: member_tokens ms' end
  end.

Definition plain_members (ms : list (string * string)) : bool :=
  forallb (fun m => plain m.1 && plain m.2) ms.

(** The members as the parser returns them. *)
Definition string_members (ms : list (string * string))
  : list (string * Json.json) :=
  (fun m => (m.1, Json.JString m.2)) <$> ms.

(** * The registry: [Builtin] and [ListTools] *)

Section registry.

Implicit Types (name : string) (keys : list string) (t : Tool).

(** The five registered names. *)
Lemma Tools_keys :
  (map_to_list Tools).*1 ≡ₚ
  ["sys.read"; "sys.write"; "sys.http.get"; "sys.abort"; "sys.http.post"].
Proof.
  unfold Tools. rewrite map_to_list_to_map; [reflexivity|].
  apply (bool_decide_unpack _). by vm_compute.
Qed.

Lemma Tools_size : size Tools = 5%nat.
Proof.
  rewrite <- length_map_to_list, <- (length_fmap fst).
  by rewrite Tools_keys.
Qed.

(** What [Builtin] returns is decided by the lookup alone. *)
Lemma Builtin_Some name t :
  Tools !! name = Some t →
  Builtin name =
    ({| Name := name; ID := name; Instructions := "#!" +:+ name;
        Description := Description t; Arguments := Arguments t;
        BuiltinFunc := BuiltinFunc t |}, true).
Proof. intros H. unfold Builtin, map_index. by rewrite H. Qed.

Lemma Builtin_None name :
  Tools !! name = None →
  Builtin name =
    ({| Name := name; ID := name; Instructions := "#!" +:+ name;
        Description := ""; Arguments := None; BuiltinFunc := None |}, false).
Proof. intros H. unfold Builtin, map_index. by rewrite H. Qed.

Lemma Builtin_Name name : Name (Builtin name).1 = name.
Proof. unfold Builtin. by destruct (map_index Tools name). Qed.

Lemma range_of_elem keys name :
  range_of Tools keys → name ∈ keys → is_Some (Tools !! name).
Proof.
  unfold range_of. intros Hp Hin. rewrite Hp in Hin.
  apply list_elem_of_fmap in Hin as [[k t] [-> Hin]].
  apply elem_of_map_to_list in Hin. by exists t.
Qed.

Lemma sort_Strings_perm keys : sort_Strings keys ≡ₚ keys.
Proof. apply merge_sort_Permutation. Qed.

Lemma sort_Strings_sorted keys : StronglySorted String.le (sort_Strings keys).
Proof. apply StronglySorted_merge_sort; apply _. Qed.

Lemma ListTools_names keys : Name <$> ListTools keys = sort_Strings keys.
Proof.
  unfold ListTools. rewrite <- list_fmap_compose.
  rewrite <- (list_fmap_id (sort_Strings keys)) at 2.
  apply list_fmap_ext. intros _ k _. apply Builtin_Name.
Qed.

End registry.

(** C2, as stated, fails: for a name that is not registered the flag is
    false but [Name], [ID] and [Instructions] of the descriptor returned are
    not the zero value, [Builtin] having set them from the name. *)
Lemma Builtin_unregistered_not_zero :
  Tools !! "nonexistent" = None ∧
  (Builtin "nonexistent").2 = false ∧
  Name (Builtin "nonexistent").1 = "nonexistent" ∧
  ID (Builtin "nonexistent").1 = "nonexistent" ∧
  Instructions (Builtin "nonexistent").1 = "#!nonexistent" ∧
  (Builtin "nonexistent").1 ≠ zero_Tool.
Proof.
  assert (H : Tools !! "nonexistent" = None) by by vm_compute.
  rewrite (Builtin_None _ H). by repeat split.
Qed.

(** C2, amended: for every name that is not registered, [Builtin] returns
    found = false and a descriptor whose [Description], [Arguments] and
    [BuiltinFunc] are the zero value, while [Name] and [ID] are the name
    looked up and [Instructions] is the marker followed by that name. *)
Theorem Builtin_unregistered (name : string) :
  Tools !! name = None →
  (Builtin name).2 = false ∧
  Description (Builtin name).1 = Description zero_Tool ∧
  Arguments (Builtin name).1 = Arguments zero_Tool ∧
  BuiltinFunc (Builtin name).1 = BuiltinFunc zero_Tool ∧
  Name (Builtin name).1 = name ∧
  ID (Builtin name).1 = name ∧
  Instructions (Builtin name).1 = "#!" +:+ name.
Proof. intros H. rewrite (Builtin_None _ H). by repeat split. Qed.

Lemma Builtin_unregistered_witness :
  Tools !! "nonexistent" = None ∧
  (Builtin "nonexistent").2 = false ∧
  Instructions (Builtin "nonexistent").1 = "#!nonexistent".
Proof.
  assert (H : Tools !! "nonexistent" = None) by (vm_compute; reflexivity).
  split; [exact H|].
  destruct (Builtin_unregistered "nonexistent" H) as (Hf & _ & _ & _ & _ & _ & Hi).
  split; [exact Hf | exact Hi].
Defined.

(** C5: for every registered name, [Builtin] returns found = true and a
    descriptor whose [Name] and [ID] are the name looked up and whose
    [Instructions] is the marker [#!] followed by the name. *)
Theorem Builtin_registered (name : string) :
  name ∈ dom Tools →
  (Builtin name).2 = true ∧
  Name (Builtin name).1 = name ∧
  ID (Builtin name).1 = name ∧
  Instructions (Builtin name).1 = "#!" +:+ name.
Proof.
  intros [t H]%elem_of_dom. rewrite (Builtin_Some _ _ H). by repeat split.
Qed.

Lemma Builtin_registered_witness :
  (Builtin "sys.http.get").2 = true ∧
  Name (Builtin "sys.http.get").1 = "sys.http.get" ∧
  ID (Builtin "sys.http.get").1 = "sys.http.get" ∧
  Instructions (Builtin "sys.http.get").1 = "#!sys.http.get".
Proof.
  apply (Builtin_registered "sys.http.get").
  apply (bool_decide_unpack _). vm_compute. reflexivity.
Defined.

(** C6: whatever the order in which the range loop visits the registry,
    [ListTools] returns as many descriptors as there are entries, in
    ascending order of [Name] and without repetition, each of them the
    descriptor [Builtin] returns for its name. *)
Theorem ListTools_sorted (keys : list string) :
  range_of Tools keys →
  length (ListTools keys) = size Tools ∧
  StronglySorted String.le (Name <$> ListTools keys) ∧
  NoDup (Name <$> ListTools keys) ∧
  Forall (fun t => Builtin (Name t) = (t, true)) (ListTools keys).
Proof.
  intros Hr. split; [|split; [|split]].
  - unfold ListTools. rewrite length_fmap, sort_Strings_perm, Hr.
    by rewrite length_fmap, length_map_to_list.
  - rewrite ListTools_names. apply sort_Strings_sorted.
  - rewrite ListTools_names, sort_Strings_perm, Hr.
    apply NoDup_fst_map_to_list.
  - unfold ListTools. apply Forall_fmap, Forall_forall. intros k Hk. simpl.
    rewrite sort_Strings_perm in Hk.
    destruct (range_of_elem _ _ Hr Hk) as [t Ht].
    rewrite (Builtin_Some _ _ Ht). simpl. exact (Builtin_Some _ _ Ht).
Qed.

Lemma ListTools_sorted_witness :
  Name <$> ListTools ["sys.read"; "sys.write"; "sys.http.get"; "sys.abort"; "sys.http.post"]
  = ["sys.abort"; "sys.http.get"; "sys.http.post"; "sys.read"; "sys.write"] ∧
  length (ListTools ["sys.read"; "sys.write"; "sys.http.get"; "sys.abort"; "sys.http.post"])
  = size Tools.
Proof.
  split; [vm_compute; reflexivity|].
  refine (proj1 (ListTools_sorted _ _)).
  unfold range_of. apply (bool_decide_unpack _). vm_compute. reflexivity.
Defined.

(** * Decoding *)

Section decoding.

Import Json.
Implicit Types (fields : list string) (ms : list (string * json))
  (d : decodeState) (f k : string).

Lemma Unmarshal_malformed fields input :
  parse input = None → Unmarshal fields input = (∅, Some SyntaxError).
Proof. intros H. unfold Unmarshal. by rewrite H. Qed.

Lemma Unmarshal_object fields input ms :
  parse input = Some (JObject ms) →
  Unmarshal fields input =
    (params (object fields ms {| params := ∅; savedError := None |}),
     savedError (object fields ms {| params := ∅; savedError := None |})).
Proof. intros H. unfold Unmarshal. by rewrite H. Qed.

Lemma find_field_names fields k f :
  find_field fields k = Some f → f ∈ fields ∧ names f k = true.
Proof.
  unfold find_field, names.
  destruct (List.find (String.eqb k) fields) as [f'|] eqn:E.
  - intros [= <-]. apply find_some in E as [Hin Heq].
    apply String.eqb_eq in Heq as <-.
    split; [by apply list_elem_of_In | apply String.eqb_refl].
  - intros [Hin Heq]%find_some. split; [by apply list_elem_of_In | done].
Qed.

Lemma find_field_None fields k :
  find_field fields k = None ↔ names_field fields k = false.
Proof.
  unfold find_field, names_field, names. split.
  - destruct (List.find (String.eqb k) fields); [done|]. intros H.
    apply not_true_is_false. intros (f & Hin & Heq)%existsb_exists.
    by rewrite (find_none _ _ H f Hin) in Heq.
  - intros H.
    assert (Hall : ∀ f, In f fields →
              String.eqb (foldName f) (foldName k) = false).
    { intros f Hin. apply not_true_is_false. intros Heq.
      apply not_true_iff_false in H. apply H, existsb_exists. eauto. }
    destruct (List.find (String.eqb k) fields) as [f|] eqn:E.
    + apply find_some in E as [Hin Heq]. apply String.eqb_eq in Heq as ->.
      specialize (Hall f Hin). rewrite String.eqb_refl in Hall. discriminate Hall.
    + destruct (List.find (fun f => String.eqb (foldName f) (foldName k)) fields)
        as [f|] eqn:E'; [|reflexivity].
      apply find_some in E' as [Hin Heq]. rewrite (Hall f Hin) in Heq. discriminate Heq.
Qed.

(** Members that name no field change nothing. *)
Lemma object_strip fields ms d :
  object fields (strip fields ms) d = object fields ms d.
Proof.
  unfold object, strip. revert d.
  induction ms as [|m ms IH]; intros d; [done|]. simpl.
  destruct (names_field fields m.1) eqn:E; simpl.
  - apply IH.
  - rewrite IH. apply find_field_None in E.
    replace (member fields d m) with d; [done|].
    unfold member. by rewrite E.
Qed.

(** Members of the right type raise no error. *)
Lemma object_well_typed fields ms d :
  well_typed fields ms = true →
  savedError (object fields ms d) = savedError d.
Proof.
  unfold object, well_typed. revert d.
  induction ms as [|m ms IH]; intros d; [done|]. simpl.
  intros [Hm Hms]%andb_prop. rewrite (IH _ Hms). unfold member.
  destruct (find_field fields m.1) as [f|] eqn:E; [|done].
  destruct (names_field fields m.1) eqn:E'.
  - simpl in Hm. unfold store. by destruct m.2.
  - apply find_field_None in E'. congruence.
Qed.

(** A field no member names keeps its value. *)
Lemma object_omits fields ms d f :
  omits ms f = true →
  params (object fields ms d) !! f = params d !! f.
Proof.
  unfold object, omits. revert d.
  induction ms as [|m ms IH]; intros d; [done|]. simpl.
  intros [Hm Hms]%andb_prop. rewrite (IH _ Hms). unfold member.
  destruct (find_field fields m.1) as [f'|] eqn:E; [|done].
  apply find_field_names in E as [_ E].
  assert (f' ≠ f) as Hne.
  { intros ->. by rewrite E in Hm. }
  unfold store, saveError.
  destruct m.2, (savedError d); simpl; try done; by rewrite lookup_insert_ne.
Qed.

(** Once an error is saved it is the one returned. *)
Lemma object_error_kept fields ms d e :
  savedError d = Some e → savedError (object fields ms d) = Some e.
Proof.
  unfold object. revert d.
  induction ms as [|m ms IH]; intros d Hd; [done|]. simpl.
  apply IH. unfold member.
  destruct (find_field fields m.1) as [f|]; [|done].
  unfold store, saveError. destruct m.2; simpl; by rewrite ?Hd.
Qed.

(** A member of the wrong type is a decode error. *)
Lemma object_ill_typed fields ms d :
  well_typed fields ms = false → is_Some (savedError (object fields ms d)).
Proof.
  unfold well_typed. revert d.
  induction ms as [|m ms IH]; intros d; [done|].
  cbn [forallb]. intros [Hm|Hms]%andb_false_iff.
  - apply orb_false_iff in Hm as [Hn Hs].
    apply negb_false_iff in Hn.
    destruct (find_field fields m.1) as [f|] eqn:E.
    + assert (is_Some (savedError (member fields d m))) as [e He].
      { unfold member. rewrite E. unfold store, saveError.
        destruct m.2; try discriminate Hs;
          destruct (savedError d) eqn:E'; rewrite ?E'; by eexists. }
      exists e. change (object fields (m :: ms) d)
                  with (object fields ms (member fields d m)).
      by apply object_error_kept.
    + apply find_field_None in E. congruence.
  - change (object fields (m :: ms) d)
      with (object fields ms (member fields d m)). by apply IH.
Qed.

(** The inputs [Unmarshal] takes without error: null, and the objects whose
    members that name a field have a string or null for value. *)
Lemma Unmarshal_ok_iff fields input :
  (Unmarshal fields input).2 = None ↔
  parse input = Some JNull ∨
  ∃ ms, parse input = Some (JObject ms) ∧ well_typed fields ms = true.
Proof.
  unfold Unmarshal. destruct (parse input) as [v|]; simpl.
  - destruct v; simpl; try (split; [discriminate | by intros [[=]|(? & [=] & _)]]).
    + split; [by left | done].
    + split.
      * intros H. right. exists members. split; [done|].
        destruct (well_typed fields members) eqn:E; [done|].
        destruct (object_ill_typed fields members
                    {| params := ∅; savedError := None |} E) as [e He].
        unfold value in H. congruence.
      * intros [[=]|(ms & [= <-] & Hw)].
        by rewrite (object_well_typed _ _ _ Hw).
  - split; [discriminate | by intros [[=]|(? & [=] & _)]].
Qed.

End decoding.

(** ** The decoder at work *)

Section decoding_examples.

Import Json.

Example parse_object :
  parse write_input
  = Some (JObject [("filename", JString "/tmp/t.txt");
                   ("content", JString "hello")]).
Proof. vm_compute. reflexivity. Qed.

Example parse_nested :
  parse (text " { 'a' : [ 1 , -2.5e+3 , true , false , null , { } ] } ")
  = Some (JObject [("a", JArray [JNumber "1"; JNumber "-2.5e+3"; JBool true;
                                 JBool false; JNull; JObject []])]).
Proof. vm_compute. reflexivity. Qed.

Example parse_escapes :
  parse (text "'a\nb\u0041\/\\'")
  = Some (JString ("a" +:+ String (chr 10) "bA/\")).
Proof. vm_compute. reflexivity. Qed.

Example parse_surrogate_pair :
  parse (text "'\ud83d\ude00'")
  = Some (JString (String (chr 240) (String (chr 159)
                     (String (chr 152) (String (chr 128) ""))))).
Proof. vm_compute. reflexivity. Qed.

Example parse_lone_surrogate :
  parse (text "'\ud83dx'") = Some (JString (EncodeRune RuneError +:+ "x")).
Proof. vm_compute. reflexivity. Qed.

Example parse_invalid_utf8 :
  parse (String dquote (String (chr 255) (String dquote "")))
  = Some (JString (String (chr 239) (String (chr 191) (String (chr 189) "")))).
Proof. vm_compute. reflexivity. Qed.

Example parse_rejects :
  parse "" = None ∧ parse (text "{'a':1,}") = None ∧ parse "[1,]" = None ∧
  parse "01" = None ∧ parse "1." = None ∧ parse "-" = None ∧
  parse "tru" = None ∧ parse "nulll" = None ∧ parse "1 2" = None ∧
  parse (text "'abc") = None ∧ parse (text "'\x'") = None ∧
  parse (text "'\u12g4'") = None ∧ parse (text "{a:1}") = None ∧
  parse (String dquote (String (chr 10) (String dquote ""))) = None.
Proof. vm_compute. repeat split. Qed.

Example Unmarshal_null : Unmarshal ["filename"] "null" = (∅, None).
Proof. vm_compute. reflexivity. Qed.

Example Unmarshal_not_an_object :
  Unmarshal ["filename"] "[]" = (∅, Some (UnmarshalTypeError "array" "")) ∧
  Unmarshal ["filename"] "12" = (∅, Some (UnmarshalTypeError "number" "")) ∧
  Unmarshal ["filename"] "true" = (∅, Some (UnmarshalTypeError "bool" "")) ∧
  Unmarshal ["filename"] (text "'a'")
  = (∅, Some (UnmarshalTypeError "string" "")).
Proof. vm_compute. repeat split. Qed.

Example Unmarshal_wrong_type :
  Unmarshal ["filename"; "content"] (text "{'content':'c','filename':7}")
  = ({["content" := "c"]}, Some (UnmarshalTypeError "number" "filename")).
Proof. vm_compute. reflexivity. Qed.

Example Unmarshal_first_error :
  (Unmarshal ["filename"] (text "{'filename':[],'filename':true}")).2
  = Some (UnmarshalTypeError "array" "filename").
Proof. vm_compute. reflexivity. Qed.

Example Unmarshal_null_member :
  Unmarshal ["filename"] (text "{'filename':null}") = (∅, None).
Proof. vm_compute. reflexivity. Qed.

Example Unmarshal_last_wins :
  Unmarshal ["filename"] (text "{'filename':'a','filename':'b'}")
  = ({["filename" := "b"]}, None).
Proof. vm_compute. reflexivity. Qed.

Example Unmarshal_folds_case :
  Unmarshal ["url"; "content"; "contentType"]
    (text "{'URL':'u','Content':'c','CONTENTTYPE':'t'}")
  = (<["url" := "u"]> (<["content" := "c"]> {["contentType" := "t"]}), None).
Proof. vm_compute. reflexivity. Qed.

Example Unmarshal_long_s :
  Unmarshal ["message"] (text "{'me\u017f\u017fage':'m'}")
  = ({["message" := "m"]}, None).
Proof. vm_compute. reflexivity. Qed.

Example Unmarshal_unknown_member :
  Unmarshal ["message"] (text "{'massage':'m','messages':{'message':'n'}}")
  = (∅, None).
Proof. vm_compute. reflexivity. Qed.

Example fmt_d_decimal :
  fmt_d 0 = "0" ∧ fmt_d 5 = "5" ∧ fmt_d 1234 = "1234".
Proof. vm_compute. repeat split. Qed.

End decoding_examples.

(** * Runs of programs *)

Section runs.

Implicit Types (t : list obs).

Lemma runs_Ret {A} (a' : A) t a : runs (Ret a') t a ↔ t = [] ∧ a' = a.
Proof. reflexivity. Qed.

Lemma runs_Vis {A X} (e : event X) (k : X → IO A) t a :
  runs (Vis e k) t a ↔ ∃ x t', t = observe e x :: t' ∧ runs (k x) t' a.
Proof.
  simpl. destruct t as [|o t'].
  - split; [tauto|]. by intros (? & ? & ? & _).
  - split.
    + intros (x & -> & H). eauto.
    + intros (x & t'' & [= -> ->] & H). eauto.
Qed.

Lemma runs_call {A X} (e : event X) (k : X → IO A) t a :
  runs (x ← call e; k x) t a ↔
  ∃ x t', t = observe e x :: t' ∧ runs (k x) t' a.
Proof. apply runs_Vis. Qed.

Lemma runs_bind {A B} (q : IO B) (f : B → IO A) t a :
  runs (bind q f) t a ↔
  ∃ t1 t2 b, t = (t1 ++ t2)%list ∧ runs q t1 b ∧ runs (f b) t2 a.
Proof.
  revert t. induction q as [b|X e k IH]; intros t; simpl bind.
  - split.
    + intros H. exists [], t, b. by repeat split.
    + by intros (t1 & t2 & b' & -> & [-> <-] & H).
  - rewrite runs_Vis. split.
    + intros (x & t' & -> & H).
      apply IH in H as (t1 & t2 & b & -> & H1 & H2).
      exists (observe e x :: t1), t2, b. split; [done|]. split; [|done].
      apply runs_Vis. eauto.
    + intros (t1 & t2 & b & -> & H1 & H2).
      apply runs_Vis in H1 as (x & t' & -> & H1).
      exists x, (t' ++ t2)%list. split; [done|]. apply IH. eauto 6.
Qed.

Lemma runs_defer_Close {A} r (p : IO A) t a :
  runs (defer_Close r p) t a ↔
  ∃ t1 err, t = (t1 ++ [ObsClose r err])%list ∧ runs p t1 a.
Proof.
  unfold defer_Close. rewrite runs_bind. split.
  - intros (t1 & t2 & a' & -> & H1 & H2).
    apply runs_Vis in H2 as (x & t' & -> & [-> <-]). eauto.
  - intros (t1 & err & -> & H). exists t1, [ObsClose r err], a.
    repeat split; [done|]. apply runs_Vis. by exists err, [].
Qed.

(** A program that returns at once has one run, without calls. *)
Lemma runs_Ret_only {A} (a' : A) t a : runs (Ret a') t a ↔ t = [] ∧ a = a'.
Proof. rewrite runs_Ret. split; intros [-> ->]; done. Qed.

End runs.

(** * The handlers *)

Section handlers.

Implicit Types (ctx : Context) (env : list string) (input : string)
  (params : gmap string string) (t : list obs) (r : string * option error).

(** ** A decode error ends every handler *)

Lemma SysRead_decode_error ctx env input e :
  (Json.Unmarshal ["filename"] input).2 = Some e →
  SysRead ctx env input = Ret ("", Some e).
Proof.
  unfold SysRead. destruct (Json.Unmarshal _ input) as [? [?|]]; naive_solver.
Qed.

Lemma SysWrite_decode_error ctx env input e :
  (Json.Unmarshal ["filename"; "content"] input).2 = Some e →
  SysWrite ctx env input = Ret ("", Some e).
Proof.
  unfold SysWrite. destruct (Json.Unmarshal _ input) as [? [?|]]; naive_solver.
Qed.

Lemma SysHTTPGet_decode_error ctx env input e :
  (Json.Unmarshal ["url"] input).2 = Some e →
  SysHTTPGet ctx env input = Ret ("", Some e).
Proof.
  unfold SysHTTPGet. destruct (Json.Unmarshal _ input) as [? [?|]]; naive_solver.
Qed.

Lemma SysHTTPPost_decode_error ctx env input e :
  (Json.Unmarshal ["url"; "content"; "contentType"] input).2 = Some e →
  SysHTTPPost ctx env input = Ret ("", Some e).
Proof.
  unfold SysHTTPPost. destruct (Json.Unmarshal _ input) as [? [?|]]; naive_solver.
Qed.

Lemma SysAbort_decode_error ctx env input e :
  (Json.Unmarshal ["message"] input).2 = Some e →
  SysAbort ctx env input = Ret ("", Some e).
Proof.
  unfold SysAbort. destruct (Json.Unmarshal _ input) as [? [?|]]; naive_solver.
Qed.

(** ** The runs of each handler once the input is decoded *)

Lemma SysRead_runs ctx env input params t r :
  Json.Unmarshal ["filename"] input = (params, None) →
  runs (SysRead ctx env input) t r ↔
  ∃ data err,
    t = [ObsLogDebugf "Reading file %s" [field params "filename"];
         ObsReadFile (field params "filename") data err] ∧
    r = read_result data err.
Proof.
  intros Hd. unfold SysRead. rewrite Hd. rewrite runs_call. split.
  - intros ([] & t1 & -> & H).
    apply runs_call in H as ([data err] & t2 & -> & H).
    exists data, err. destruct err; apply runs_Ret in H as [-> <-]; done.
  - intros (data & err & -> & ->). eexists (), _. split; [reflexivity|].
    apply runs_call. exists (data, err), []. split; [done|].
    by destruct err.
Qed.

Lemma SysWrite_runs ctx env input params t r :
  Json.Unmarshal ["filename"; "content"] input = (params, None) →
  runs (SysWrite ctx env input) t r ↔
  ∃ err,
    t = [ObsLogDebugf
           ("Wrote " +:+ fmt_d (String.length (field params "content"))
            +:+ " bytes to file " +:+ field params "filename") [];
         ObsWriteFile (field params "filename") (field params "content") 420 err] ∧
    r = ("", err).
Proof.
  intros Hd. unfold SysWrite. rewrite Hd. rewrite runs_call. split.
  - intros ([] & t1 & -> & H).
    apply runs_call in H as (err & t2 & -> & [-> <-]). eauto.
  - intros (err & -> & ->). eexists (), _. split; [reflexivity|].
    apply runs_call. by exists err, [].
Qed.

Lemma SysHTTPGet_runs ctx env input params t r :
  Json.Unmarshal ["url"] input = (params, None) →
  let URL := field params "url" in
  runs (SysHTTPGet ctx env input) t r ↔
  (∃ err,
     t = [ObsLogDebugf "http get %s" [URL]; ObsHttpGet URL (inr err)] ∧
     r = ("", Some err)) ∨
  (∃ resp cerr,
     StatusCode resp ≠ 200%Z ∧
     t = [ObsLogDebugf "http get %s" [URL]; ObsHttpGet URL (inl resp);
          ObsClose (Body resp) cerr] ∧
     r = ("", Some (Errorf ("failed to download " +:+ URL +:+ ": "
                            +:+ Status resp)))) ∨
  (∃ resp data err cerr,
     StatusCode resp = 200%Z ∧
     t = [ObsLogDebugf "http get %s" [URL]; ObsHttpGet URL (inl resp);
          ObsReadAll (Body resp) data err; ObsClose (Body resp) cerr] ∧
     r = read_result data err).
Proof.
  intros Hd URL. unfold SysHTTPGet. rewrite Hd. fold URL.
  rewrite runs_call. split.
  - intros ([] & t1 & -> & H).
    apply runs_call in H as ([resp|err] & t2 & -> & H).
    + right. apply runs_defer_Close in H as (t3 & cerr & -> & H).
      destruct (Z.eqb_spec (StatusCode resp) 200) as [Hs|Hs]; cbn [negb] in H.
      * right. apply runs_call in H as ([data err] & t4 & -> & H).
        exists resp, data, err, cerr. split; [done|].
        destruct err; apply runs_Ret in H as [-> <-]; done.
      * left. apply runs_Ret in H as [-> <-]. by exists resp, cerr.
    + left. apply runs_Ret in H as [-> <-]. by exists err.
  - intros [(err & -> & ->) | [(resp & cerr & Hs & -> & ->)
                              | (resp & data & err & cerr & Hs & -> & ->)]].
    + eexists (), _. split; [reflexivity|]. apply runs_call.
      by exists (inr err), [].
    + eexists (), _. split; [reflexivity|]. apply runs_call.
      eexists (inl resp), _. split; [reflexivity|].
      apply runs_defer_Close. exists [], cerr. split; [done|].
      destruct (Z.eqb_spec (StatusCode resp) 200); [done|]. cbn [negb]. by apply runs_Ret.
    + eexists (), _. split; [reflexivity|]. apply runs_call.
      eexists (inl resp), _. split; [reflexivity|].
      apply runs_defer_Close. eexists [_], cerr. split; [reflexivity|].
      destruct (Z.eqb_spec (StatusCode resp) 200); [cbn [negb]|done].
      apply runs_call. exists (data, err), []. split; [done|]. by destruct err.
Qed.

Lemma SysHTTPPost_runs ctx env input params t r :
  Json.Unmarshal ["url"; "content"; "contentType"] input = (params, None) →
  let URL := field params "url" in
  let Content := field params "content" in
  let ContentType := field params "contentType" in
  runs (SysHTTPPost ctx env input) t r ↔
  (∃ err,
     t = [ObsNewRequest ctx "POST" URL Content (inr err)] ∧
     r = ("", Some err)) ∨
  (∃ req err,
     t = [ObsNewRequest ctx "POST" URL Content (inl req);
          ObsDo (with_ContentType ContentType req) (inr err)] ∧
     r = ("", Some err)) ∨
  (∃ req resp data err cerr,
     t = [ObsNewRequest ctx "POST" URL Content (inl req);
          ObsDo (with_ContentType ContentType req) (inl resp);
          ObsReadAll (Body resp) data err; ObsClose (Body resp) cerr] ∧
     r = post_result URL Content resp).
Proof.
  intros Hd URL Content ContentType. unfold SysHTTPPost. rewrite Hd.
  fold URL Content ContentType. rewrite runs_call. split.
  - intros ([req|err] & t1 & -> & H).
    + right. fold (with_ContentType ContentType req) in H.
      apply runs_call in H as ([resp|err] & t2 & -> & H).
      * right. apply runs_defer_Close in H as (t3 & cerr & -> & H).
        apply runs_call in H as ([data err] & t4 & -> & H).
        exists req, resp, data, err, cerr. unfold post_result.
        destruct (399 <? StatusCode resp)%Z;
          apply runs_Ret in H as [-> <-]; done.
      * left. apply runs_Ret in H as [-> <-]. by exists req, err.
    + left. apply runs_Ret in H as [-> <-]. by exists err.
  - intros [(err & -> & ->) | [(req & err & -> & ->)
                              | (req & resp & data & err & cerr & -> & ->)]].
    + by exists (inr err), [].
    + eexists (inl req), _. split; [reflexivity|].
      fold (with_ContentType ContentType req).
      apply runs_call. by exists (inr err), [].
    + eexists (inl req), _. split; [reflexivity|].
      fold (with_ContentType ContentType req).
      apply runs_call. eexists (inl resp), _. split; [reflexivity|].
      apply runs_defer_Close. eexists [_], cerr. split; [reflexivity|].
      apply runs_call. exists (data, err), []. split; [done|].
      unfold post_result. by destruct (399 <? StatusCode resp)%Z.
Qed.

Lemma Contains_intro (pre sub post : string) :
  Contains (pre +:+ sub +:+ post) sub.
Proof. by exists pre, post. Qed.

Lemma append_assoc (s1 s2 s3 : string) :
  (s1 +:+ s2) +:+ s3 = s1 +:+ s2 +:+ s3.
Proof.
  induction s1 as [|c s1 IH]; [done|].
  change (String c ((s1 +:+ s2) +:+ s3) = String c (s1 +:+ s2 +:+ s3)).
  by f_equal.
Qed.

Lemma Contains_app_r (s1 s2 sub : string) :
  Contains s2 sub → Contains (s1 +:+ s2) sub.
Proof.
  intros (pre & post & ->). exists (s1 +:+ pre), post.
  by rewrite append_assoc.
Qed.

Lemma Contains_end (pre sub : string) : Contains (pre +:+ sub) sub.
Proof.
  exists pre, "". f_equal. induction sub as [|c sub IH]; [done|].
  change (String c sub = String c (sub +:+ "")). by f_equal.
Qed.

End handlers.

Lemma Ret_fails_without_calls (e : error) :
  fails_without_calls (Ret ("", Some e)) e.
Proof. intros t r. apply runs_Ret_only. Qed.

(** C3: in each of the five handlers a decode error is returned at once and
    no call is made: nothing is read or written and no request is issued.
    An input that is not JSON at all is one such decode error; the decoder
    fails on every input except null and the objects whose members that
    name a field of the struct hold a string or null. *)
Theorem decode_error_no_io (ctx : Context) (env : list string)
  (input : string) (e : error) :
  ((Json.Unmarshal ["filename"] input).2 = Some e →
   fails_without_calls (SysRead ctx env input) e) ∧
  ((Json.Unmarshal ["filename"; "content"] input).2 = Some e →
   fails_without_calls (SysWrite ctx env input) e) ∧
  ((Json.Unmarshal ["url"] input).2 = Some e →
   fails_without_calls (SysHTTPGet ctx env input) e) ∧
  ((Json.Unmarshal ["url"; "content"; "contentType"] input).2 = Some e →
   fails_without_calls (SysHTTPPost ctx env input) e) ∧
  ((Json.Unmarshal ["message"] input).2 = Some e →
   fails_without_calls (SysAbort ctx env input) e) ∧
  (Json.parse input = None →
   ∀ fields, (Json.Unmarshal fields input).2 = Some SyntaxError) ∧
  (∀ fields,
     is_Some (Json.Unmarshal fields input).2 ↔
     ¬ (Json.parse input = Some Json.JNull ∨
        ∃ ms, Json.parse input = Some (Json.JObject ms) ∧
              well_typed fields ms = true)).
Proof.
  split; [|split; [|split; [|split; [|split; [|split]]]]].
  - intros H. rewrite (SysRead_decode_error _ _ _ _ H).
    apply Ret_fails_without_calls.
  - intros H. rewrite (SysWrite_decode_error _ _ _ _ H).
    apply Ret_fails_without_calls.
  - intros H. rewrite (SysHTTPGet_decode_error _ _ _ _ H).
    apply Ret_fails_without_calls.
  - intros H. rewrite (SysHTTPPost_decode_error _ _ _ _ H).
    apply Ret_fails_without_calls.
  - intros H. rewrite (SysAbort_decode_error _ _ _ _ H).
    apply Ret_fails_without_calls.
  - intros H fields. by rewrite (Unmarshal_malformed _ _ H).
  - intros fields. rewrite <- Unmarshal_ok_iff.
    destruct (Json.Unmarshal fields input).2 as [e'|].
    + split; [done | by eexists].
    + split; [by intros [? [=]] | done].
Qed.

Lemma decode_error_no_io_witness :
  runs (SysRead ctx0 [] "{") [] ("", Some SyntaxError) ∧
  runs (SysWrite ctx0 [] "[1,") [] ("", Some SyntaxError) ∧
  runs (SysHTTPGet ctx0 [] (text "{'url':7}")) []
    ("", Some (UnmarshalTypeError "number" "url")) ∧
  runs (SysHTTPPost ctx0 [] (text "'http://example.com'")) []
    ("", Some (UnmarshalTypeError "string" "")) ∧
  runs (SysAbort ctx0 [] "") [] ("", Some SyntaxError) ∧
  (Json.Unmarshal ["message"] "tru").2 = Some SyntaxError.
Proof.
  split; [|split; [|split; [|split; [|split]]]].
  - apply (proj1 (decode_error_no_io ctx0 [] "{" SyntaxError));
      [vm_compute; reflexivity | split; reflexivity].
  - apply (proj1 (proj2 (decode_error_no_io ctx0 [] "[1," SyntaxError)));
      [vm_compute; reflexivity | split; reflexivity].
  - apply (proj1 (proj2 (proj2 (decode_error_no_io ctx0 []
             (text "{'url':7}") (UnmarshalTypeError "number" "url")))));
      [vm_compute; reflexivity | split; reflexivity].
  - apply (proj1 (proj2 (proj2 (proj2 (decode_error_no_io ctx0 []
             (text "'http://example.com'") (UnmarshalTypeError "string" ""))))));
      [vm_compute; reflexivity | split; reflexivity].
  - apply (proj1 (proj2 (proj2 (proj2 (proj2 (decode_error_no_io ctx0 []
             "" SyntaxError))))));
      [vm_compute; reflexivity | split; reflexivity].
  - apply (proj1 (proj2 (proj2 (proj2 (proj2 (proj2 (decode_error_no_io ctx0 []
             "tru" SyntaxError))))))).
    vm_compute. reflexivity.
Defined.

(** C4: [SysAbort] never succeeds.  On every input it makes no call and
    returns an error; when the input decodes, to message X say, the error is
    the one [fmt.Errorf] made, and its text contains the marker and X. *)
Theorem SysAbort_always_fails (ctx : Context) (env : list string)
  (input : string) :
  ∃ e, fails_without_calls (SysAbort ctx env input) e ∧
    ∀ params, Json.Unmarshal ["message"] input = (params, None) →
      ∃ text, e = Errorf text ∧
        Contains text "ABORT:" ∧ Contains text (field params "message").
Proof.
  unfold SysAbort. destruct (Json.Unmarshal _ input) as [params [e|]].
  - exists e. split; [apply Ret_fails_without_calls | done].
  - eexists. split; [apply Ret_fails_without_calls|].
    intros ? [= <-]. eexists. split; [reflexivity|]. split.
    + apply (Contains_intro "" "ABORT:" (" " +:+ field params "message")).
    + apply (Contains_end "ABORT: ").
Qed.

Lemma SysAbort_always_fails_witness :
  runs (SysAbort ctx0 [] (text "{'message':'disk full'}")) []
    ("", Some (Errorf "ABORT: disk full")) ∧
  Contains "ABORT: disk full" "ABORT:" ∧
  Contains "ABORT: disk full" "disk full".
Proof.
  destruct (SysAbort_always_fails ctx0 []
              (text "{'message':'disk full'}")) as (e & Hrun & Htext).
  destruct (Htext {["message" := "disk full"]}) as (txt & -> & Hc);
    [vm_compute; reflexivity|].
  assert (Hr : runs (SysAbort ctx0 [] (text "{'message':'disk full'}"))
                 [] ("", Some (Errorf "ABORT: disk full")))
    by (vm_compute; split; reflexivity).
  apply Hrun in Hr as [_ [= <-]]. split; [|exact Hc].
  apply Hrun. split; reflexivity.
Defined.

(** C7: [SysHTTPGet], once a response has come.  With status 200 and a
    body that reads as S the handler returns S and no error.  With any other
    status, other 2xx codes included, the body is not read, the string
    returned is empty, and the error's text contains the URL and the status
    text.  Both kinds of run exist. *)
Theorem SysHTTPGet_status (ctx : Context) (env : list string) (input : string)
  (params : gmap string string) :
  Json.Unmarshal ["url"] input = (params, None) →
  (∀ t r resp,
     runs (SysHTTPGet ctx env input) t r →
     In (ObsHttpGet (field params "url") (inl resp)) t →
     (StatusCode resp = 200%Z →
      ∀ S, In (ObsReadAll (Body resp) S None) t → r = (S, None)) ∧
     (StatusCode resp ≠ 200%Z →
      (∀ b S e, ¬ In (ObsReadAll b S e) t) ∧
      ∃ text, r = ("", Some (Errorf text)) ∧
        Contains text (field params "url") ∧ Contains text (Status resp))) ∧
  (∀ resp S cerr,
     StatusCode resp = 200%Z →
     runs (SysHTTPGet ctx env input)
       [ObsLogDebugf "http get %s" [field params "url"];
        ObsHttpGet (field params "url") (inl resp);
        ObsReadAll (Body resp) S None; ObsClose (Body resp) cerr]
       (S, None)) ∧
  (∀ resp cerr,
     StatusCode resp ≠ 200%Z →
     ∃ text,
       runs (SysHTTPGet ctx env input)
         [ObsLogDebugf "http get %s" [field params "url"];
          ObsHttpGet (field params "url") (inl resp);
          ObsClose (Body resp) cerr]
         ("", Some (Errorf text))).
Proof.
  intros Hd. split; [|split].
  - intros t r resp Hr Hg. apply (SysHTTPGet_runs _ _ _ _ _ _ Hd) in Hr.
    destruct Hr as [(err & -> & ->) | [(resp' & cerr & Hs & -> & ->)
                       | (resp' & data & err & cerr & Hs & -> & ->)]].
    + destruct Hg as [Hg|[Hg|[]]]; discriminate Hg.
    + destruct Hg as [Hg|[Hg|[Hg|[]]]]; try discriminate Hg.
      injection Hg as ->. split; [done|]. intros _. split.
      * intros b S e [H|[H|[H|[]]]]; discriminate H.
      * eexists. split; [reflexivity|]. split.
        -- apply (Contains_intro "failed to download ").
        -- do 2 apply Contains_app_r. apply Contains_end.
    + destruct Hg as [Hg|[Hg|[Hg|[Hg|[]]]]]; try discriminate Hg.
      injection Hg as ->. split; [|done]. intros _ S HS.
      destruct HS as [H|[H|[H|[H|[]]]]]; try discriminate H.
      by injection H as -> ->.
  - intros resp S cerr Hs. apply (SysHTTPGet_runs _ _ _ _ _ _ Hd).
    right. right. by exists resp, S, None, cerr.
  - intros resp cerr Hs. eexists. apply (SysHTTPGet_runs _ _ _ _ _ _ Hd).
    right. left. by exists resp, cerr.
Qed.

Lemma SysHTTPGet_status_witness :
  runs (SysHTTPGet ctx0 [] get_input) get_trace_ok ("hello", None) ∧
  ("hello", None) = ("hello", @None error) ∧
  (∃ text, runs (SysHTTPGet ctx0 [] get_input) get_trace_missing
             ("", Some (Errorf text))) ∧
  (∀ b S e, ¬ In (ObsReadAll b S e) get_trace_missing) ∧
  ∃ text,
    ("", Some (Errorf "failed to download http://example.com/a: 404 Not Found"))
    = ("", Some (Errorf text)) ∧
    Contains text "http://example.com/a" ∧ Contains text "404 Not Found".
Proof.
  assert (Hd : Json.Unmarshal ["url"] get_input
               = ({["url" := "http://example.com/a"]}, None))
    by (vm_compute; reflexivity).
  destruct (SysHTTPGet_status ctx0 [] get_input _ Hd) as (Hall & Hok & Hmissing).
  assert (Hrun : runs (SysHTTPGet ctx0 [] get_input) get_trace_ok ("hello", None))
    by (apply (Hok resp_ok "hello" None); reflexivity).
  split; [exact Hrun|]. split; [|split; [|split]].
  - refine (proj1 (Hall _ _ resp_ok Hrun _) _ "hello" _).
    + vm_compute. right. left. reflexivity.
    + vm_compute. reflexivity.
    + vm_compute. right. right. left. reflexivity.
  - apply (Hmissing resp_missing None). vm_compute. discriminate.
  - refine (proj1 (proj2 (Hall get_trace_missing
      ("", Some (Errorf "failed to download http://example.com/a: 404 Not Found"))
      resp_missing _ _) _)).
    + apply (SysHTTPGet_runs _ _ _ _ _ _ Hd). right. left.
      exists resp_missing, None.
      repeat split; vm_compute; (reflexivity || discriminate).
    + vm_compute. right. left. reflexivity.
    + vm_compute. discriminate.
  - refine (proj2 (proj2 (Hall get_trace_missing
      ("", Some (Errorf "failed to download http://example.com/a: 404 Not Found"))
      resp_missing _ _) _)).
    + apply (SysHTTPGet_runs _ _ _ _ _ _ Hd). right. left.
      exists resp_missing, None.
      repeat split; vm_compute; (reflexivity || discriminate).
    + vm_compute. right. left. reflexivity.
    + vm_compute. discriminate.
Defined.

(** C8: [SysHTTPPost], once a response has come.  The body of the response
    is read and what is read is used nowhere.  With a status of at most 399
    the handler returns, without error, a message that contains the number
    of bytes of the posted content and the URL; with a status above 399 it
    returns an error whose text contains the URL and the status text.  Such
    runs exist for every response. *)
Theorem SysHTTPPost_status (ctx : Context) (env : list string) (input : string)
  (params : gmap string string) :
  Json.Unmarshal ["url"; "content"; "contentType"] input = (params, None) →
  (∀ t r req resp,
     runs (SysHTTPPost ctx env input) t r →
     In (ObsDo req (inl resp)) t →
     (∃ data err, In (ObsReadAll (Body resp) data err) t) ∧
     ((StatusCode resp ≤ 399)%Z →
      r = ("Wrote " +:+ fmt_d (String.length (field params "content"))
           +:+ " to " +:+ field params "url", None) ∧
      Contains r.1 (fmt_d (String.length (field params "content"))) ∧
      Contains r.1 (field params "url")) ∧
     ((399 < StatusCode resp)%Z →
      ∃ text, r = ("", Some (Errorf text)) ∧
        Contains text (field params "url") ∧ Contains text (Status resp))) ∧
  (∀ req resp data err cerr,
     runs (SysHTTPPost ctx env input)
       [ObsNewRequest ctx "POST" (field params "url") (field params "content")
          (inl req);
        ObsDo (with_ContentType (field params "contentType") req) (inl resp);
        ObsReadAll (Body resp) data err; ObsClose (Body resp) cerr]
       (post_result (field params "url") (field params "content") resp)).
Proof.
  intros Hd. split.
  - intros t r req resp Hr Hg. apply (SysHTTPPost_runs _ _ _ _ _ _ Hd) in Hr.
    destruct Hr as [(err & -> & ->) | [(req' & err & -> & ->)
                       | (req' & resp' & data & err & cerr & -> & ->)]].
    + destruct Hg as [Hg|[]]; discriminate Hg.
    + destruct Hg as [Hg|[Hg|[]]]; discriminate Hg.
    + destruct Hg as [Hg|[Hg|[Hg|[Hg|[]]]]]; try discriminate Hg.
      injection Hg as _ ->. split; [|split].
      * exists data, err. right. right. by left.
      * intros Hs. unfold post_result.
        destruct (Z.ltb_spec 399 (StatusCode resp)) as [Hlt|_]; [lia|].
        split; [done|]. split.
        -- apply (Contains_intro "Wrote ").
        -- do 2 apply Contains_app_r. apply Contains_end.
      * intros Hs. unfold post_result.
        destruct (Z.ltb_spec 399 (StatusCode resp)) as [_|Hle]; [|lia].
        eexists. split; [reflexivity|]. split.
        -- apply (Contains_intro "failed to post ").
        -- do 2 apply Contains_app_r. apply Contains_end.
  - intros req resp data err cerr. apply (SysHTTPPost_runs _ _ _ _ _ _ Hd).
    right. right. by exists req, resp, data, err, cerr.
Qed.

Lemma SysHTTPPost_status_witness :
  runs (SysHTTPPost ctx0 [] post_input) (post_trace resp_ok)
    ("Wrote 5 to http://example.com/p", None) ∧
  Contains "Wrote 5 to http://example.com/p" "5" ∧
  Contains "Wrote 5 to http://example.com/p" "http://example.com/p" ∧
  runs (SysHTTPPost ctx0 [] post_input) (post_trace resp_bad)
    ("", Some (Errorf "failed to post http://example.com/p: 400 Bad Request")) ∧
  ∃ text,
    ("", Some (Errorf "failed to post http://example.com/p: 400 Bad Request"))
    = ("", Some (Errorf text)) ∧
    Contains text "http://example.com/p" ∧ Contains text "400 Bad Request".
Proof.
  assert (Hd : Json.Unmarshal ["url"; "content"; "contentType"] post_input
               = (<["url" := "http://example.com/p"]>
                    (<["content" := "hello"]>
                       {["contentType" := "text/plain"]}), None))
    by (vm_compute; reflexivity).
  destruct (SysHTTPPost_status ctx0 [] post_input _ Hd) as (Hall & Hex).
  assert (Hok : runs (SysHTTPPost ctx0 [] post_input) (post_trace resp_ok)
                  ("Wrote 5 to http://example.com/p", None))
    by exact (Hex req0 resp_ok "thanks" None None).
  assert (Hbad : runs (SysHTTPPost ctx0 [] post_input) (post_trace resp_bad)
            ("", Some (Errorf "failed to post http://example.com/p: 400 Bad Request")))
    by exact (Hex req0 resp_bad "thanks" None None).
  split; [exact Hok|].
  assert (Hin : ∀ resp, In (ObsDo (Header_Set "Content-Type" "text/plain" req0)
                              (inl resp)) (post_trace resp))
    by (intros resp; right; left; reflexivity).
  split; [|split; [|split; [exact Hbad|]]].
  - refine (proj1 (proj2 (proj1 (proj2 (Hall _ _ _ _ Hok (Hin resp_ok))) _))).
    vm_compute. discriminate.
  - refine (proj2 (proj2 (proj1 (proj2 (Hall _ _ _ _ Hok (Hin resp_ok))) _))).
    vm_compute. discriminate.
  - refine (proj2 (proj2 (Hall _ _ _ _ Hbad (Hin resp_bad))) _).
    vm_compute. reflexivity.
Defined.

(** C1: on a local filesystem, a call of [SysWrite] that succeeded, with
    filename F and content C, followed by a call of [SysRead] with the same
    filename F, returns exactly C and no error; and the read has such a
    run. *)
Theorem write_then_read (ctx ctx' : Context) (env env' : list string)
  (inW inR : string) (pW pR : gmap string string) (m : gmap string string)
  (t1 : list obs) :
  Json.Unmarshal ["filename"; "content"] inW = (pW, None) →
  Json.Unmarshal ["filename"] inR = (pR, None) →
  field pR "filename" = field pW "filename" →
  runs (SysWrite ctx env inW) t1 ("", None) →
  (∀ t2 r,
     runs (SysRead ctx' env' inR) t2 r →
     fs_trace m (t1 ++ t2) →
     r = (field pW "content", None)) ∧
  (∃ t2,
     runs (SysRead ctx' env' inR) t2 (field pW "content", None) ∧
     fs_trace m (t1 ++ t2)).
Proof.
  intros HdW HdR HF HW.
  apply (SysWrite_runs _ _ _ _ _ _ HdW) in HW as (err & -> & [= <-]).
  split.
  - intros t2 r HR Hfs.
    apply (SysRead_runs _ _ _ _ _ _ HdR) in HR as (data & err & -> & ->).
    rewrite HF in Hfs. simpl in Hfs. destruct Hfs as [Hread _].
    destruct (Hread (field pW "content")) as [-> ->]; [|done].
    apply lookup_insert_eq.
  - eexists. split.
    + apply (SysRead_runs _ _ _ _ _ _ HdR).
      by exists (field pW "content"), None.
    + rewrite HF. simpl. split; [|done]. intros c.
      rewrite lookup_insert_eq. by intros [= <-].
Qed.

Lemma write_then_read_witness :
  runs (SysWrite ctx0 [] write_input) write_trace ("", None) ∧
  runs (SysRead ctx0 [] read_input) (read_trace "hello") ("hello", None) ∧
  fs_trace ∅ (write_trace ++ read_trace "hello") ∧
  ("hello", None) = ("hello", @None error).
Proof.
  assert (HdW : Json.Unmarshal ["filename"; "content"] write_input
                = (<["filename" := "/tmp/t.txt"]> {["content" := "hello"]}, None))
    by (vm_compute; reflexivity).
  assert (HdR : Json.Unmarshal ["filename"] read_input
                = ({["filename" := "/tmp/t.txt"]}, None))
    by (vm_compute; reflexivity).
  assert (HW : runs (SysWrite ctx0 [] write_input) write_trace ("", None)).
  { apply (SysWrite_runs _ _ _ _ _ _ HdW). exists None.
    split; vm_compute; reflexivity. }
  assert (HR : runs (SysRead ctx0 [] read_input) (read_trace "hello")
                 ("hello", None)).
  { apply (SysRead_runs _ _ _ _ _ _ HdR). exists "hello", None.
    split; vm_compute; reflexivity. }
  assert (Hfs : fs_trace ∅ (write_trace ++ read_trace "hello")).
  { simpl. split; [|exact I]. intros c Hc.
    rewrite lookup_insert_eq in Hc. by injection Hc as <-. }
  split; [exact HW|]. split; [exact HR|]. split; [exact Hfs|].
  refine (proj1 (write_then_read ctx0 ctx0 [] [] _ _ _ _ ∅ _ HdW HdR _ HW)
            _ _ HR Hfs).
  vm_compute. reflexivity.
Defined.

(** * Fields left out, fields brought along *)

Lemma Unmarshal_well_typed (fields : list string) (input : string)
  (ms : list (string * Json.json)) :
  Json.parse input = Some (Json.JObject ms) →
  well_typed fields ms = true →
  (Json.Unmarshal fields input).2 = None.
Proof.
  intros Hp Hw. rewrite (Unmarshal_object _ _ _ Hp). simpl.
  by rewrite (object_well_typed _ _ _ Hw).
Qed.

Lemma Unmarshal_omits (fields : list string) (input : string)
  (ms : list (string * Json.json)) (f : string) :
  Json.parse input = Some (Json.JObject ms) →
  omits ms f = true →
  field (Json.Unmarshal fields input).1 f = "".
Proof.
  intros Hp Ho. rewrite (Unmarshal_object _ _ _ Hp). unfold field. simpl.
  by rewrite (object_omits _ _ _ _ Ho).
Qed.

Lemma Unmarshal_strip (fields : list string) (a b : string)
  (ms : list (string * Json.json)) :
  Json.parse a = Some (Json.JObject ms) →
  Json.parse b = Some (Json.JObject (strip fields ms)) →
  Json.Unmarshal fields a = Json.Unmarshal fields b.
Proof.
  intros Ha Hb.
  rewrite (Unmarshal_object _ _ _ Ha), (Unmarshal_object _ _ _ Hb).
  by rewrite object_strip.
Qed.

(** C9, as stated, fails: an object that has no member named filename, but
    one named FILENAME, is accepted without error, and the field is not the
    empty string: [SysRead] reads the file the member names, not the empty
    path. *)
Lemma renamed_field_is_stored :
  Json.parse shout_only_input
  = Some (Json.JObject [("FILENAME", Json.JString "x")]) ∧
  omits_exact [("FILENAME", Json.JString "x")] "filename" = true ∧
  (Json.Unmarshal ["filename"] shout_only_input).2 = None ∧
  field (Json.Unmarshal ["filename"] shout_only_input).1 "filename" = "x" ∧
  runs (SysRead ctx0 [] shout_only_input) read_x_trace ("data", None) ∧
  ¬ runs (SysRead ctx0 [] shout_only_input) read_empty_trace ("data", None).
Proof.
  assert (Hd : Json.Unmarshal ["filename"] shout_only_input
               = ({["filename" := "x"]}, None)) by (vm_compute; reflexivity).
  split; [vm_compute; reflexivity|]. split; [vm_compute; reflexivity|].
  rewrite Hd. split; [reflexivity|]. split; [vm_compute; reflexivity|]. split.
  - apply (SysRead_runs _ _ _ _ _ _ Hd). exists "data", None.
    split; vm_compute; reflexivity.
  - intros (data & err & Ht & _)%(SysRead_runs _ _ _ _ _ _ Hd).
    vm_compute in Ht. discriminate Ht.
Qed.

(** C9, amended: an object whose members have values their fields take is
    decoded without error whatever fields it leaves out, and a field that no
    member names, letter case set aside, is the empty string.  So [SysRead]
    and [SysWrite] without a filename call the filesystem with the empty
    path, [SysHTTPGet] without a URL requests the empty URL, [SysHTTPPost]
    without a content type sends the request as it was made, and [SysAbort]
    without a message fails with the bare marker. *)
Theorem missing_field_defaults (ctx : Context) (env : list string)
  (input : string) (ms : list (string * Json.json)) :
  Json.parse input = Some (Json.JObject ms) →
  (∀ fields, well_typed fields ms = true →
     (Json.Unmarshal fields input).2 = None ∧
     ∀ f, omits ms f = true → field (Json.Unmarshal fields input).1 f = "") ∧
  (well_typed ["filename"] ms = true → omits ms "filename" = true →
     ∀ t r, runs (SysRead ctx env input) t r ↔
       ∃ data err,
         t = [ObsLogDebugf "Reading file %s" [""]; ObsReadFile "" data err] ∧
         r = read_result data err) ∧
  (well_typed ["filename"; "content"] ms = true → omits ms "filename" = true →
     ∀ t r, runs (SysWrite ctx env input) t r ↔
       ∃ err,
         t = [ObsLogDebugf
                ("Wrote "
                 +:+ fmt_d (String.length
                      (field (Json.Unmarshal ["filename"; "content"] input).1
                         "content"))
                 +:+ " bytes to file ") [];
              ObsWriteFile ""
                (field (Json.Unmarshal ["filename"; "content"] input).1 "content")
                420 err] ∧
         r = ("", err)) ∧
  (well_typed ["url"] ms = true → omits ms "url" = true →
     ∀ t r, runs (SysHTTPGet ctx env input) t r →
       ∃ res, In (ObsHttpGet "" res) t) ∧
  (well_typed ["url"; "content"; "contentType"] ms = true →
   omits ms "contentType" = true →
     ∀ t r req req' res, runs (SysHTTPPost ctx env input) t r →
       In (ObsNewRequest ctx "POST"
             (field (Json.Unmarshal ["url"; "content"; "contentType"] input).1 "url")
             (field (Json.Unmarshal ["url"; "content"; "contentType"] input).1 "content")
             (inl req)) t →
       In (ObsDo req' res) t → req' = req) ∧
  (well_typed ["message"] ms = true → omits ms "message" = true →
     fails_without_calls (SysAbort ctx env input) (Errorf "ABORT: ")).
Proof.
  intros Hp. split; [|split; [|split; [|split; [|split]]]].
  - intros fields Hw. split; [by apply (Unmarshal_well_typed _ _ ms)|].
    intros f Ho. by apply (Unmarshal_omits _ _ ms).
  - intros Hw Ho t r.
    pose proof (Unmarshal_well_typed _ _ _ Hp Hw) as He.
    pose proof (Unmarshal_omits ["filename"] _ _ _ Hp Ho) as Hf.
    destruct (Json.Unmarshal ["filename"] input) as [params e] eqn:Hd.
    simpl in He, Hf. subst e.
    rewrite (SysRead_runs _ _ _ _ _ _ Hd), Hf. done.
  - intros Hw Ho.
    pose proof (Unmarshal_well_typed _ _ _ Hp Hw) as He.
    pose proof (Unmarshal_omits ["filename"; "content"] _ _ _ Hp Ho) as Hf.
    destruct (Json.Unmarshal ["filename"; "content"] input) as [params e] eqn:Hd.
    simpl in He, Hf. subst e. intros t r. simpl.
    rewrite (SysWrite_runs _ _ _ _ _ _ Hd), Hf. done.
  - intros Hw Ho.
    pose proof (Unmarshal_well_typed _ _ _ Hp Hw) as He.
    pose proof (Unmarshal_omits ["url"] _ _ _ Hp Ho) as Hf.
    destruct (Json.Unmarshal ["url"] input) as [params e] eqn:Hd.
    simpl in He, Hf. subst e. intros t r Hr.
    apply (SysHTTPGet_runs _ _ _ _ _ _ Hd) in Hr. rewrite Hf in Hr.
    destruct Hr as [(err & -> & _) | [(resp & cerr & _ & -> & _)
                                  | (resp & data & err & cerr & _ & -> & _)]];
      eexists; right; left; reflexivity.
  - intros Hw Ho.
    pose proof (Unmarshal_well_typed _ _ _ Hp Hw) as He.
    pose proof (Unmarshal_omits ["url"; "content"; "contentType"] _ _ _ Hp Ho) as Hf.
    destruct (Json.Unmarshal ["url"; "content"; "contentType"] input)
      as [params e] eqn:Hd.
    simpl in He, Hf. subst e. intros t r req req' res Hr Hn Hdo. simpl in Hn.
    apply (SysHTTPPost_runs _ _ _ _ _ _ Hd) in Hr. rewrite Hf in Hr.
    destruct Hr as [(err & -> & _) | [(req1 & err & -> & _)
                       | (req1 & resp & data & err & cerr & -> & _)]].
    + destruct Hdo as [H|[]]; discriminate H.
    + destruct Hn as [Hn|[Hn|[]]]; try discriminate Hn. injection Hn as ->.
      destruct Hdo as [H|[H|[]]]; try discriminate H. by injection H as <- _.
    + destruct Hn as [Hn|[Hn|[Hn|[Hn|[]]]]]; try discriminate Hn.
      injection Hn as ->.
      destruct Hdo as [H|[H|[H|[H|[]]]]]; try discriminate H.
      by injection H as <- _.
  - intros Hw Ho.
    pose proof (Unmarshal_well_typed _ _ _ Hp Hw) as He.
    pose proof (Unmarshal_omits ["message"] _ _ _ Hp Ho) as Hf.
    unfold SysAbort.
    destruct (Json.Unmarshal ["message"] input) as [params e].
    simpl in He, Hf. subst e. rewrite Hf. apply Ret_fails_without_calls.
Qed.

Lemma missing_field_defaults_witness :
  Json.parse "{}" = Some (Json.JObject []) ∧
  (Json.Unmarshal ["filename"; "content"] "{}").2 = None ∧
  field (Json.Unmarshal ["filename"; "content"] "{}").1 "filename" = "" ∧
  runs (SysRead ctx0 [] "{}")
    [ObsLogDebugf "Reading file %s" [""];
     ObsReadFile "" "" (Some (External "open : no such file or directory"))]
    ("", Some (External "open : no such file or directory")) ∧
  runs (SysWrite ctx0 [] content_only_input)
    [ObsLogDebugf "Wrote 1 bytes to file " [];
     ObsWriteFile "" "x" 420 (Some (External "open : no such file or directory"))]
    ("", Some (External "open : no such file or directory")) ∧
  fails_without_calls (SysAbort ctx0 [] "{}") (Errorf "ABORT: ").
Proof.
  assert (Hp : Json.parse "{}" = Some (Json.JObject []))
    by (vm_compute; reflexivity).
  assert (Hc : Json.parse content_only_input
               = Some (Json.JObject [("content", Json.JString "x")]))
    by (vm_compute; reflexivity).
  destruct (missing_field_defaults ctx0 [] "{}" [] Hp)
    as (Hany & Hread & _ & _ & _ & Habort).
  destruct (missing_field_defaults ctx0 [] content_only_input _ Hc)
    as (_ & _ & Hwrite & _).
  split; [exact Hp|].
  destruct (Hany ["filename"; "content"]) as [He Hf]; [reflexivity|].
  split; [exact He|]. split; [apply Hf; reflexivity|].
  split; [|split; [|apply Habort; reflexivity]].
  - apply Hread; [reflexivity | reflexivity |].
    exists "", (Some (External "open : no such file or directory")).
    split; reflexivity.
  - apply Hwrite; [vm_compute; reflexivity | vm_compute; reflexivity |].
    exists (Some (External "open : no such file or directory")).
    split; vm_compute; reflexivity.
Defined.

(** * Fields the handler does not declare *)

(** C10, as stated, fails: a member whose name is none of the declared
    names, but differs from one only in letter case, is stored into that
    field.  Here [SysRead] reads file b, and reads file a once the member
    FILENAME is removed. *)
Lemma extra_field_changes_result :
  Json.parse shouted_input = Some (Json.JObject shouted_members) ∧
  Json.parse plain_input
  = Some (Json.JObject (strip_exact ["filename"] shouted_members)) ∧
  (Json.Unmarshal ["filename"] shouted_input).2 = None ∧
  runs (SysRead ctx0 [] shouted_input) read_b_trace ("x", None) ∧
  ¬ runs (SysRead ctx0 [] plain_input) read_b_trace ("x", None).
Proof.
  assert (Hs : Json.Unmarshal ["filename"] shouted_input
               = ({["filename" := "b"]}, None)) by (vm_compute; reflexivity).
  assert (Hp : Json.Unmarshal ["filename"] plain_input
               = ({["filename" := "a"]}, None)) by (vm_compute; reflexivity).
  split; [vm_compute; reflexivity|]. split; [vm_compute; reflexivity|].
  split; [by rewrite Hs|]. split.
  - apply (SysRead_runs _ _ _ _ _ _ Hs). exists "x", None.
    split; vm_compute; reflexivity.
  - intros (data & err & Ht & _)%(SysRead_runs _ _ _ _ _ _ Hp).
    vm_compute in Ht. discriminate Ht.
Qed.

(** C10, amended: the members of an object whose names equal none of the
    declared names, even with letter case set aside, raise no decode error
    and change nothing: each handler is the same program on the input and
    on the input without these members, so that results and errors agree
    whatever the environment answers. *)
Theorem extra_fields_ignored (ctx : Context) (env : list string)
  (a b : string) (ms : list (string * Json.json)) :
  Json.parse a = Some (Json.JObject ms) →
  (∀ fields, Json.parse b = Some (Json.JObject (strip fields ms)) →
     Json.Unmarshal fields a = Json.Unmarshal fields b) ∧
  (Json.parse b = Some (Json.JObject (strip ["filename"] ms)) →
     SysRead ctx env a = SysRead ctx env b) ∧
  (Json.parse b = Some (Json.JObject (strip ["filename"; "content"] ms)) →
     SysWrite ctx env a = SysWrite ctx env b) ∧
  (Json.parse b = Some (Json.JObject (strip ["url"] ms)) →
     SysHTTPGet ctx env a = SysHTTPGet ctx env b) ∧
  (Json.parse b
   = Some (Json.JObject (strip ["url"; "content"; "contentType"] ms)) →
     SysHTTPPost ctx env a = SysHTTPPost ctx env b) ∧
  (Json.parse b = Some (Json.JObject (strip ["message"] ms)) →
     SysAbort ctx env a = SysAbort ctx env b).
Proof.
  intros Ha. split; [|split; [|split; [|split; [|split]]]].
  - intros fields Hb. by apply (Unmarshal_strip _ _ _ ms).
  - intros Hb. unfold SysRead. by rewrite (Unmarshal_strip _ _ _ _ Ha Hb).
  - intros Hb. unfold SysWrite. by rewrite (Unmarshal_strip _ _ _ _ Ha Hb).
  - intros Hb. unfold SysHTTPGet. by rewrite (Unmarshal_strip _ _ _ _ Ha Hb).
  - intros Hb. unfold SysHTTPPost. by rewrite (Unmarshal_strip _ _ _ _ Ha Hb).
  - intros Hb. unfold SysAbort. by rewrite (Unmarshal_strip _ _ _ _ Ha Hb).
Qed.

Lemma extra_fields_ignored_witness :
  Json.parse noted_input
  = Some (Json.JObject
            [("filename", Json.JString "a"); ("note", Json.JString "n");
             ("depth", Json.JArray [Json.JNumber "1"; Json.JObject []])]) ∧
  Json.parse plain_input = Some (Json.JObject [("filename", Json.JString "a")]) ∧
  Json.Unmarshal ["filename"] noted_input = ({["filename" := "a"]}, None) ∧
  SysRead ctx0 [] noted_input = SysRead ctx0 [] plain_input.
Proof.
  assert (Ha : Json.parse noted_input
    = Some (Json.JObject
              [("filename", Json.JString "a"); ("note", Json.JString "n");
               ("depth", Json.JArray [Json.JNumber "1"; Json.JObject []])]))
    by (vm_compute; reflexivity).
  assert (Hb : Json.parse plain_input
               = Some (Json.JObject [("filename", Json.JString "a")]))
    by (vm_compute; reflexivity).
  split; [exact Ha|]. split; [exact Hb|].
  split; [vm_compute; reflexivity|].
  apply (proj1 (proj2 (extra_fields_ignored ctx0 [] _ _ _ Ha))).
  exact Hb.
Defined.

(** * More on the registry *)

Section registry_more.

Implicit Types (name : string) (keys : list string) (t : Tool).

(** Every entry of the registry holds one of the five handlers, and a schema
    that names the fields this handler decodes. *)
Lemma Tools_entry name t :
  Tools !! name = Some t →
  Name t = "" ∧ ID t = "" ∧ Instructions t = "" ∧
  ∃ h schema,
    BuiltinFunc t = Some h ∧ Arguments t = Some schema ∧
    In (h, schema.*1) handler_table.
Proof.
  unfold Tools. intros H%elem_of_list_to_map_2. unfold handler_table.
  repeat (apply elem_of_cons in H as [[= -> ->]|H];
          [repeat split; eexists _, _; repeat split; simpl; tauto|]).
  by apply elem_of_nil in H.
Qed.

Lemma sorted_names_perm keys : range_of Tools keys → sorted_names ≡ₚ keys.
Proof.
  unfold range_of. intros ->. rewrite Tools_keys.
  apply (bool_decide_unpack _). by vm_compute.
Qed.

Lemma sort_Strings_range keys :
  range_of Tools keys → sort_Strings keys = sorted_names.
Proof.
  intros Hr. apply (StronglySorted_unique String.le).
  - apply sort_Strings_sorted.
  - apply (bool_decide_unpack _). by vm_compute.
  - by rewrite sort_Strings_perm, (sorted_names_perm keys).
Qed.

End registry_more.

(** X1: the list [ListTools] returns does not depend on the order in which
    the range loop visits the map: it is always the descriptors of
    sys.abort, sys.http.get, sys.http.post, sys.read and sys.write, in this
    order. *)
Theorem ListTools_any_order (keys : list string) :
  range_of Tools keys →
  ListTools keys = (fun key => (Builtin key).1) <$> sorted_names.
Proof. intros Hr. unfold ListTools. by rewrite (sort_Strings_range _ Hr). Qed.

Lemma ListTools_any_order_witness :
  ListTools ["sys.http.post"; "sys.read"; "sys.abort"; "sys.write"; "sys.http.get"]
  = (fun key => (Builtin key).1) <$> sorted_names.
Proof.
  apply ListTools_any_order.
  unfold range_of. apply (bool_decide_unpack _). vm_compute. reflexivity.
Defined.

(** X2: [ListTools] lists exactly the registered tools, each once: a
    descriptor is in the list if and only if it is the one [Builtin] returns
    for a registered name. *)
Theorem ListTools_complete (keys : list string) :
  range_of Tools keys →
  NoDup (ListTools keys) ∧
  ∀ t, t ∈ ListTools keys ↔
       ∃ name, name ∈ dom Tools ∧ t = (Builtin name).1.
Proof.
  intros Hr. split.
  - apply (NoDup_fmap_1 Name).
    rewrite ListTools_names, sort_Strings_perm, Hr.
    apply NoDup_fst_map_to_list.
  - intros t. unfold ListTools. split.
    + intros (name & -> & Hin)%list_elem_of_fmap. exists name. split; [|done].
      rewrite sort_Strings_perm in Hin.
      apply elem_of_dom. by apply (range_of_elem keys).
    + intros (name & Hin & ->). apply list_elem_of_fmap.
      exists name. split; [done|]. rewrite sort_Strings_perm, Hr.
      apply elem_of_dom in Hin as [t' Ht].
      apply list_elem_of_fmap. exists (name, t'). split; [done|].
      by apply elem_of_map_to_list.
Qed.

Lemma ListTools_complete_witness :
  (Builtin "sys.write").1
  ∈ ListTools ["sys.read"; "sys.write"; "sys.http.get"; "sys.abort"; "sys.http.post"].
Proof.
  assert (Hr : range_of Tools
            ["sys.read"; "sys.write"; "sys.http.get"; "sys.abort"; "sys.http.post"])
    by (unfold range_of; apply (bool_decide_unpack _); vm_compute; reflexivity).
  apply (proj2 (ListTools_complete _ Hr)). exists "sys.write".
  split; [|reflexivity].
  apply (bool_decide_unpack _). vm_compute. reflexivity.
Defined.

(** X3: the flag [Builtin] returns tells whether the descriptor can be
    used: it is true exactly for the registered names, and exactly then the
    descriptor has a handler and a schema; for every other name both are
    nil. *)
Theorem Builtin_found_iff_handler (name : string) :
  ((Builtin name).2 = true ↔ name ∈ dom Tools) ∧
  ((Builtin name).2 = true ↔ is_Some (BuiltinFunc (Builtin name).1)) ∧
  ((Builtin name).2 = true ↔ is_Some (Arguments (Builtin name).1)).
Proof.
  destruct (Tools !! name) as [t|] eqn:Ht.
  - rewrite (Builtin_Some _ _ Ht). simpl.
    destruct (Tools_entry _ _ Ht) as (_ & _ & _ & h & schema & -> & -> & _).
    split; [|split]; (split; [intros _|done]); [|by eexists..].
    apply elem_of_dom. by exists t.
  - rewrite (Builtin_None _ Ht). simpl.
    split; [|split]; (split; [discriminate|]); [|by intros [? [=]]..].
    intros [t Ht']%elem_of_dom. congruence.
Qed.

(** * More on the handlers *)

Section handlers_more.

Implicit Types (ctx : Context) (env : list string) (input : string)
  (params : gmap string string) (t : list obs) (r : string * option error).

(** The runs of each handler, whatever the input. *)
Lemma SysRead_cases ctx env input t r :
  runs (SysRead ctx env input) t r →
  (∃ e, (Json.Unmarshal ["filename"] input).2 = Some e ∧
        t = [] ∧ r = ("", Some e)) ∨
  (∃ params data err,
     Json.Unmarshal ["filename"] input = (params, None) ∧
     t = [ObsLogDebugf "Reading file %s" [field params "filename"];
          ObsReadFile (field params "filename") data err] ∧
     r = read_result data err).
Proof.
  destruct (Json.Unmarshal ["filename"] input) as [params [e|]] eqn:Hd.
  - rewrite (SysRead_decode_error _ _ _ e) by by rewrite Hd.
    intros [-> ->]%runs_Ret_only. left. by exists e.
  - intros (data & err & -> & ->)%(SysRead_runs _ _ _ _ _ _ Hd).
    right. by exists params, data, err.
Qed.

Lemma SysWrite_cases ctx env input t r :
  runs (SysWrite ctx env input) t r →
  (∃ e, (Json.Unmarshal ["filename"; "content"] input).2 = Some e ∧
        t = [] ∧ r = ("", Some e)) ∨
  (∃ params err,
     Json.Unmarshal ["filename"; "content"] input = (params, None) ∧
     t = [ObsLogDebugf
            ("Wrote " +:+ fmt_d (String.length (field params "content"))
             +:+ " bytes to file " +:+ field params "filename") [];
          ObsWriteFile (field params "filename") (field params "content")
            420 err] ∧
     r = ("", err)).
Proof.
  destruct (Json.Unmarshal ["filename"; "content"] input)
    as [params [e|]] eqn:Hd.
  - rewrite (SysWrite_decode_error _ _ _ e) by by rewrite Hd.
    intros [-> ->]%runs_Ret_only. left. by exists e.
  - intros (err & -> & ->)%(SysWrite_runs _ _ _ _ _ _ Hd).
    right. by exists params, err.
Qed.

Lemma SysHTTPGet_cases ctx env input t r :
  runs (SysHTTPGet ctx env input) t r →
  (∃ e, (Json.Unmarshal ["url"] input).2 = Some e ∧
        t = [] ∧ r = ("", Some e)) ∨
  (∃ params, Json.Unmarshal ["url"] input = (params, None) ∧
     ((∃ err,
         t = [ObsLogDebugf "http get %s" [field params "url"];
              ObsHttpGet (field params "url") (inr err)] ∧
         r = ("", Some err)) ∨
      (∃ resp cerr,
         StatusCode resp ≠ 200%Z ∧
         t = [ObsLogDebugf "http get %s" [field params "url"];
              ObsHttpGet (field params "url") (inl resp);
              ObsClose (Body resp) cerr] ∧
         r = ("", Some (Errorf ("failed to download " +:+ field params "url"
                                +:+ ": " +:+ Status resp)))) ∨
      (∃ resp data err cerr,
         StatusCode resp = 200%Z ∧
         t = [ObsLogDebugf "http get %s" [field params "url"];
              ObsHttpGet (field params "url") (inl resp);
              ObsReadAll (Body resp) data err; ObsClose (Body resp) cerr] ∧
         r = read_result data err))).
Proof.
  destruct (Json.Unmarshal ["url"] input) as [params [e|]] eqn:Hd.
  - rewrite (SysHTTPGet_decode_error _ _ _ e) by by rewrite Hd.
    intros [-> ->]%runs_Ret_only. left. by exists e.
  - intros H%(SysHTTPGet_runs _ _ _ _ _ _ Hd). right. by exists params.
Qed.

Lemma SysHTTPPost_cases ctx env input t r :
  runs (SysHTTPPost ctx env input) t r →
  (∃ e, (Json.Unmarshal ["url"; "content"; "contentType"] input).2 = Some e ∧
        t = [] ∧ r = ("", Some e)) ∨
  (∃ params,
     Json.Unmarshal ["url"; "content"; "contentType"] input = (params, None) ∧
     ((∃ err,
         t = [ObsNewRequest ctx "POST" (field params "url")
                (field params "content") (inr err)] ∧
         r = ("", Some err)) ∨
      (∃ req err,
         t = [ObsNewRequest ctx "POST" (field params "url")
                (field params "content") (inl req);
              ObsDo (with_ContentType (field params "contentType") req)
                (inr err)] ∧
         r = ("", Some err)) ∨
      (∃ req resp data err cerr,
         t = [ObsNewRequest ctx "POST" (field params "url")
                (field params "content") (inl req);
              ObsDo (with_ContentType (field params "contentType") req)
                (inl resp);
              ObsReadAll (Body resp) data err; ObsClose (Body resp) cerr] ∧
         r = post_result (field params "url") (field params "content") resp))).
Proof.
  destruct (Json.Unmarshal ["url"; "content"; "contentType"] input)
    as [params [e|]] eqn:Hd.
  - rewrite (SysHTTPPost_decode_error _ _ _ e) by by rewrite Hd.
    intros [-> ->]%runs_Ret_only. left. by exists e.
  - intros H%(SysHTTPPost_runs _ _ _ _ _ _ Hd). right. by exists params.
Qed.

Lemma SysAbort_cases ctx env input t r :
  runs (SysAbort ctx env input) t r → t = [] ∧ r.1 = "" ∧ is_Some r.2.
Proof.
  unfold SysAbort. destruct (Json.Unmarshal ["message"] input) as [params [e|]];
    intros [-> ->]%runs_Ret_only; by eauto.
Qed.

(** A handler of the table, taken apart. *)
Lemma handler_table_cases (h : Handler) (fields : list string) :
  In (h, fields) handler_table →
  (h = SysRead ∧ fields = ["filename"]) ∨
  (h = SysWrite ∧ fields = ["filename"; "content"]) ∨
  (h = SysHTTPGet ∧ fields = ["url"]) ∨
  (h = SysHTTPPost ∧ fields = ["url"; "content"; "contentType"]) ∨
  (h = SysAbort ∧ fields = ["message"]).
Proof.
  intros [H|[H|[H|[H|[H|[]]]]]]; injection H as <- <-; tauto.
Qed.

End handlers_more.

(** X4: what the schema of a registered tool declares is what its handler
    reads.  The handler's program is fixed by the decoding of the input
    against the parameter names of the schema, together with the context:
    two inputs with the same decoding give the same program, and the
    environment list plays no part. *)
Theorem handler_reads_its_schema (name : string) (t : Tool) (h : Handler)
  (schema : JSONSchema) (ctx : Context) (env env' : list string)
  (a b : string) :
  Tools !! name = Some t →
  BuiltinFunc t = Some h →
  Arguments t = Some schema →
  Json.Unmarshal schema.*1 a = Json.Unmarshal schema.*1 b →
  h ctx env a = h ctx env' b.
Proof.
  intros Ht Hh Hs Hd.
  destruct (Tools_entry _ _ Ht) as (_ & _ & _ & h' & schema' & Hh' & Hs' & Hin).
  rewrite Hh in Hh'. rewrite Hs in Hs'.
  injection Hh' as <-. injection Hs' as <-.
  destruct (handler_table_cases _ _ Hin)
    as [[-> Hf]|[[-> Hf]|[[-> Hf]|[[-> Hf]|[-> Hf]]]]]; rewrite Hf in Hd.
  - unfold SysRead. by rewrite Hd.
  - unfold SysWrite. by rewrite Hd.
  - unfold SysHTTPGet. by rewrite Hd.
  - unfold SysHTTPPost. by rewrite Hd.
  - unfold SysAbort. by rewrite Hd.
Qed.

Lemma handler_reads_its_schema_witness :
  SysRead ctx0 [] noted_input = SysRead ctx0 ["HOME=/root"] plain_input.
Proof.
  apply (handler_reads_its_schema "sys.read" read_tool SysRead
           (ObjectSchema ["filename"; "The name of the file to read"])).
  - reflexivity.
  - reflexivity.
  - reflexivity.
  - vm_compute. reflexivity.
Defined.

(** X5: no registered handler returns text together with an error: in every
    run that ends with an error the string returned is empty. *)
Theorem error_has_empty_result (name : string) (t : Tool) (h : Handler)
  (ctx : Context) (env : list string) (input : string)
  (tr : list obs) (r : string * option error) :
  Tools !! name = Some t →
  BuiltinFunc t = Some h →
  runs (h ctx env input) tr r →
  is_Some r.2 →
  r.1 = "".
Proof.
  intros Ht Hh Hr He.
  destruct (Tools_entry _ _ Ht) as (_ & _ & _ & h' & schema' & Hh' & _ & Hin).
  rewrite Hh in Hh'. injection Hh' as <-.
  destruct (handler_table_cases _ _ Hin)
    as [[-> _]|[[-> _]|[[-> _]|[[-> _]|[-> _]]]]].
  - apply SysRead_cases in Hr
      as [(e & _ & _ & ->)|(params & data & err & _ & _ & ->)]; [done|].
    destruct err; [done | by destruct He].
  - by apply SysWrite_cases in Hr
      as [(e & _ & _ & ->)|(params & err & _ & _ & ->)].
  - apply SysHTTPGet_cases in Hr
      as [(e & _ & _ & ->)|(params & _ & [(err & _ & ->)
            |[(resp & cerr & _ & _ & ->)
            |(resp & data & err & cerr & _ & _ & ->)]])]; try done.
    destruct err; [done | by destruct He].
  - apply SysHTTPPost_cases in Hr
      as [(e & _ & _ & ->)|(params & _ & [(err & _ & ->)
            |[(req & err & _ & ->)
            |(req & resp & data & err & cerr & _ & ->)]])]; try done.
    unfold post_result in *.
    destruct (399 <? StatusCode resp)%Z; [done | by destruct He].
  - by apply SysAbort_cases in Hr as (_ & ? & _).
Qed.

Lemma error_has_empty_result_witness :
  runs (SysHTTPGet ctx0 [] get_input) get_trace_missing
    ("", Some (Errorf "failed to download http://example.com/a: 404 Not Found")) ∧
  ("", Some (Errorf "failed to download http://example.com/a: 404 Not Found")).1
  = "".
Proof.
  assert (Hd : Json.Unmarshal ["url"] get_input
               = ({["url" := "http://example.com/a"]}, None))
    by (vm_compute; reflexivity).
  assert (Hr : runs (SysHTTPGet ctx0 [] get_input) get_trace_missing
    ("", Some (Errorf "failed to download http://example.com/a: 404 Not Found"))).
  { apply (SysHTTPGet_runs _ _ _ _ _ _ Hd). right. left.
    exists resp_missing, None.
    repeat split; vm_compute; (reflexivity || discriminate). }
  split; [exact Hr|].
  apply (error_has_empty_result "sys.http.get" get_tool SysHTTPGet
           ctx0 [] get_input get_trace_missing).
  - reflexivity.
  - reflexivity.
  - exact Hr.
  - eexists. reflexivity.
Defined.

(** X6: the handlers keep apart.  The file handlers never call [net/http]:
    [SysRead] makes at most one read and no write, [SysWrite] at most one
    write and no read.  The HTTP handlers never call [os] and put at most one
    request on the network; [SysHTTPPost], unlike the others, logs
    nothing. *)
Theorem handlers_keep_apart (ctx : Context) (env : list string)
  (input : string) (t : list obs) (r : string * option error) :
  (runs (SysRead ctx env input) t r →
   count is_net_call t = 0 ∧ count is_write t = 0 ∧ (count is_read t ≤ 1)%nat) ∧
  (runs (SysWrite ctx env input) t r →
   count is_net_call t = 0 ∧ count is_read t = 0 ∧ (count is_write t ≤ 1)%nat) ∧
  (runs (SysHTTPGet ctx env input) t r →
   count is_file_call t = 0 ∧ (count is_request t ≤ 1)%nat) ∧
  (runs (SysHTTPPost ctx env input) t r →
   count is_file_call t = 0 ∧ (count is_request t ≤ 1)%nat ∧ count is_log t = 0).
Proof.
  split; [|split; [|split]].
  - intros [(e & _ & -> & _)|(params & data & err & _ & -> & _)]%SysRead_cases;
      cbn; lia.
  - intros [(e & _ & -> & _)|(params & err & _ & -> & _)]%SysWrite_cases;
      cbn; lia.
  - intros [(e & _ & -> & _)|(params & _ & [(err & -> & _)
        |[(resp & cerr & _ & -> & _)
        |(resp & data & err & cerr & _ & -> & _)]])]%SysHTTPGet_cases;
      cbn; lia.
  - intros [(e & _ & -> & _)|(params & _ & [(err & -> & _)
        |[(req & err & -> & _)
        |(req & resp & data & err & cerr & -> & _)]])]%SysHTTPPost_cases;
      cbn; lia.
Qed.

Lemma handlers_keep_apart_witness :
  runs (SysHTTPGet ctx0 [] get_input) get_trace_ok ("hello", None) ∧
  count is_file_call get_trace_ok = 0 ∧ (count is_request get_trace_ok ≤ 1)%nat.
Proof.
  assert (Hd : Json.Unmarshal ["url"] get_input
               = ({["url" := "http://example.com/a"]}, None))
    by (vm_compute; reflexivity).
  assert (Hr : runs (SysHTTPGet ctx0 [] get_input) get_trace_ok ("hello", None)).
  { apply (SysHTTPGet_runs _ _ _ _ _ _ Hd). right. right.
    exists resp_ok, "hello", None, None. repeat split; vm_compute; reflexivity. }
  split; [exact Hr|].
  exact (proj1 (proj2 (proj2 (handlers_keep_apart ctx0 [] get_input
                                get_trace_ok ("hello", None)))) Hr).
Defined.

(** X7: the body of a response is closed on every path.  In a run of
    [SysHTTPGet] or [SysHTTPPost] in which a response came, its body is
    closed exactly once, and this is the last call of the run; in a run in
    which none came, no body is read or closed. *)
Theorem body_closed_once (ctx : Context) (env : list string)
  (input : string) (t : list obs) (r : string * option error) :
  (runs (SysHTTPGet ctx env input) t r →
   (∀ url resp, In (ObsHttpGet url (inl resp)) t →
      count is_close t = 1 ∧ ∃ cerr, last t = Some (ObsClose (Body resp) cerr)) ∧
   ((∀ url resp, ¬ In (ObsHttpGet url (inl resp)) t) →
      count is_body_call t = 0)) ∧
  (runs (SysHTTPPost ctx env input) t r →
   (∀ req resp, In (ObsDo req (inl resp)) t →
      count is_close t = 1 ∧ ∃ cerr, last t = Some (ObsClose (Body resp) cerr)) ∧
   ((∀ req resp, ¬ In (ObsDo req (inl resp)) t) →
      count is_body_call t = 0)).
Proof.
  split.
  - intros [(e & _ & -> & _)|(params & _ & [(err & -> & _)
        |[(resp & cerr & _ & -> & _)
        |(resp & data & err & cerr & _ & -> & _)]])]%SysHTTPGet_cases.
    + split; [by intros ?? []|done].
    + split; [|done]. intros url resp [H|[H|[]]]; discriminate H.
    + split.
      * intros url resp' [H|[H|[H|[]]]]; try discriminate H.
        injection H as _ <-. split; [done|]. by exists cerr.
      * intros H. destruct (H (field params "url") resp). right. by left.
    + split.
      * intros url resp' [H|[H|[H|[H|[]]]]]; try discriminate H.
        injection H as _ <-. split; [done|]. by exists cerr.
      * intros H. destruct (H (field params "url") resp). right. by left.
  - intros [(e & _ & -> & _)|(params & _ & [(err & -> & _)
        |[(req & err & -> & _)
        |(req & resp & data & err & cerr & -> & _)]])]%SysHTTPPost_cases.
    + split; [by intros ?? []|done].
    + split; [|done]. intros req resp [H|[]]; discriminate H.
    + split; [|done]. intros req' resp [H|[H|[]]]; discriminate H.
    + split.
      * intros req' resp' [H|[H|[H|[H|[]]]]]; try discriminate H.
        injection H as _ <-. split; [done|]. by exists cerr.
      * intros H. destruct (H (with_ContentType (field params "contentType") req)
                              resp). right. by left.
Qed.

Lemma body_closed_once_witness :
  runs (SysHTTPGet ctx0 [] get_input) get_trace_missing
    ("", Some (Errorf "failed to download http://example.com/a: 404 Not Found")) ∧
  In (ObsHttpGet "http://example.com/a" (inl resp_missing)) get_trace_missing ∧
  count is_close get_trace_missing = 1 ∧
  ∃ cerr, last get_trace_missing = Some (ObsClose (Body resp_missing) cerr).
Proof.
  assert (Hd : Json.Unmarshal ["url"] get_input
               = ({["url" := "http://example.com/a"]}, None))
    by (vm_compute; reflexivity).
  assert (Hr : runs (SysHTTPGet ctx0 [] get_input) get_trace_missing
    ("", Some (Errorf "failed to download http://example.com/a: 404 Not Found"))).
  { apply (SysHTTPGet_runs _ _ _ _ _ _ Hd). right. left.
    exists resp_missing, None.
    repeat split; vm_compute; (reflexivity || discriminate). }
  assert (Hin : In (ObsHttpGet "http://example.com/a" (inl resp_missing))
                  get_trace_missing) by (right; left; reflexivity).
  split; [exact Hr|]. split; [exact Hin|].
  exact (proj1 (proj1 (body_closed_once ctx0 [] get_input get_trace_missing _) Hr)
           _ _ Hin).
Defined.

(** X8: [SysRead] hands on what [os.ReadFile] gives for the decoded
    filename: the content as it is when the read succeeds, and when it fails
    the error as it is with an empty string, whatever content came with the
    error.  Every answer of [os.ReadFile] has its run. *)
Theorem SysRead_passes_through (ctx : Context) (env : list string)
  (input : string) (params : gmap string string) :
  Json.Unmarshal ["filename"] input = (params, None) →
  (∀ t r, runs (SysRead ctx env input) t r →
     ∃ data err,
       In (ObsReadFile (field params "filename") data err) t ∧
       (err = None → r = (data, None)) ∧
       (∀ e, err = Some e → r = ("", Some e))) ∧
  (∀ data, ∃ t, runs (SysRead ctx env input) t (data, None)) ∧
  (∀ data e, ∃ t,
     In (ObsReadFile (field params "filename") data (Some e)) t ∧
     runs (SysRead ctx env input) t ("", Some e)).
Proof.
  intros Hd. split; [|split].
  - intros t r (data & err & -> & ->)%(SysRead_runs _ _ _ _ _ _ Hd).
    exists data, err. split; [right; by left|].
    split; [by intros ->|by intros e ->].
  - intros data. eexists. apply (SysRead_runs _ _ _ _ _ _ Hd).
    by exists data, None.
  - intros data e. eexists. split; [|apply (SysRead_runs _ _ _ _ _ _ Hd);
                                      by exists data, (Some e)].
    right. by left.
Qed.

Lemma SysRead_passes_through_witness :
  Json.Unmarshal ["filename"] read_input
  = ({["filename" := "/tmp/t.txt"]}, None) ∧
  ∃ t, In (ObsReadFile "/tmp/t.txt" "half"
             (Some (External "read /tmp/t.txt: input/output error"))) t ∧
       runs (SysRead ctx0 [] read_input) t
         ("", Some (External "read /tmp/t.txt: input/output error")).
Proof.
  assert (Hd : Json.Unmarshal ["filename"] read_input
               = ({["filename" := "/tmp/t.txt"]}, None))
    by (vm_compute; reflexivity).
  split; [exact Hd|].
  exact (proj2 (proj2 (SysRead_passes_through ctx0 [] read_input _ Hd))
           "half" (External "read /tmp/t.txt: input/output error")).
Defined.

(** X9: [SysWrite] never returns text: the string is empty in every run,
    also when the write succeeded.  Once the input is decoded it makes one
    write, of the decoded content as it is, to the decoded filename, with
    permission 0644, after logging the number of bytes of that content; the
    error it returns is the one [os.WriteFile] gave. *)
Theorem SysWrite_result (ctx : Context) (env : list string)
  (input : string) (t : list obs) (r : string * option error) :
  runs (SysWrite ctx env input) t r →
  r.1 = "" ∧
  ∀ params,
    Json.Unmarshal ["filename"; "content"] input = (params, None) →
    t = [ObsLogDebugf
           ("Wrote " +:+ fmt_d (String.length (field params "content"))
            +:+ " bytes to file " +:+ field params "filename") [];
         ObsWriteFile (field params "filename") (field params "content")
           420 r.2].
Proof.
  intros [(e & He & -> & ->)|(params & err & Hd & -> & ->)]%SysWrite_cases.
  - split; [done|]. intros params Hd. rewrite Hd in He. discriminate He.
  - split; [done|]. intros params' Hd'. rewrite Hd in Hd'.
    by injection Hd' as <-.
Qed.

Lemma SysWrite_result_witness :
  runs (SysWrite ctx0 [] write_input) write_trace ("", None) ∧
  write_trace
  = [ObsLogDebugf "Wrote 5 bytes to file /tmp/t.txt" [];
     ObsWriteFile "/tmp/t.txt" "hello" 420 None].
Proof.
  assert (HdW : Json.Unmarshal ["filename"; "content"] write_input
                = (<["filename" := "/tmp/t.txt"]> {["content" := "hello"]}, None))
    by (vm_compute; reflexivity).
  assert (HW : runs (SysWrite ctx0 [] write_input) write_trace ("", None)).
  { apply (SysWrite_runs _ _ _ _ _ _ HdW). exists None.
    split; vm_compute; reflexivity. }
  split; [exact HW|].
  exact (proj2 (SysWrite_result ctx0 [] write_input write_trace _ HW) _ HdW).
Defined.

(** X10: the failures of [SysHTTPGet] other than a bad status.  An error of
    [http.Get] is returned as it is, and no body is read or closed.  An
    error of [io.ReadAll] is returned as it is with an empty string, whatever
    part of the body had been read. *)
Theorem SysHTTPGet_failures (ctx : Context) (env : list string)
  (input : string) (params : gmap string string) (t : list obs)
  (r : string * option error) :
  Json.Unmarshal ["url"] input = (params, None) →
  runs (SysHTTPGet ctx env input) t r →
  (∀ e, In (ObsHttpGet (field params "url") (inr e)) t →
     r = ("", Some e) ∧ count is_body_call t = 0) ∧
  (∀ b data e, In (ObsReadAll b data (Some e)) t → r = ("", Some e)).
Proof.
  intros Hd [(err & -> & ->) | [(resp & cerr & Hs & -> & ->)
      | (resp & data & err & cerr & Hs & -> & ->)]]%(SysHTTPGet_runs _ _ _ _ _ _ Hd).
  - split.
    + intros e [H|[H|[]]]; try discriminate H. by injection H as ->.
    + intros b data e [H|[H|[]]]; discriminate H.
  - split.
    + intros e [H|[H|[H|[]]]]; discriminate H.
    + intros b data e [H|[H|[H|[]]]]; discriminate H.
  - split.
    + intros e [H|[H|[H|[H|[]]]]]; discriminate H.
    + intros b data' e [H|[H|[H|[H|[]]]]]; try discriminate H.
      by injection H as _ _ ->.
Qed.

Lemma SysHTTPGet_failures_witness :
  runs (SysHTTPGet ctx0 [] get_input)
    [ObsLogDebugf "http get %s" ["http://example.com/a"];
     ObsHttpGet "http://example.com/a" (inr (External "no such host"))]
    ("", Some (External "no such host")) ∧
  ("", Some (External "no such host")) = ("", Some (External "no such host")) ∧
  count is_body_call
    [ObsLogDebugf "http get %s" ["http://example.com/a"];
     ObsHttpGet "http://example.com/a" (inr (External "no such host"))] = 0.
Proof.
  assert (Hd : Json.Unmarshal ["url"] get_input
               = ({["url" := "http://example.com/a"]}, None))
    by (vm_compute; reflexivity).
  assert (Hr : runs (SysHTTPGet ctx0 [] get_input)
    [ObsLogDebugf "http get %s" ["http://example.com/a"];
     ObsHttpGet "http://example.com/a" (inr (External "no such host"))]
    ("", Some (External "no such host"))).
  { apply (SysHTTPGet_runs _ _ _ _ _ _ Hd). left.
    exists (External "no such host"). split; vm_compute; reflexivity. }
  split; [exact Hr|].
  apply (proj1 (SysHTTPGet_failures ctx0 [] get_input _ _ _ Hd Hr)).
  right. left. vm_compute. reflexivity.
Defined.

(** X11: the request of [SysHTTPPost].  Its first call makes a request with
    the handler's own context, the method POST, the decoded URL and the
    decoded content for body; if this fails the error is returned and
    nothing is sent, and if sending fails the error is returned and no body
    is read or closed.  What is sent is the request that was made, changed
    in at most one header: with an empty content type it is sent as it is,
    otherwise its Content-Type is the decoded content type and every other
    header is as it was. *)
Theorem SysHTTPPost_request (ctx : Context) (env : list string)
  (input : string) (params : gmap string string) (t : list obs)
  (r : string * option error) :
  Json.Unmarshal ["url"; "content"; "contentType"] input = (params, None) →
  runs (SysHTTPPost ctx env input) t r →
  (∃ res, head t = Some (ObsNewRequest ctx "POST" (field params "url")
                           (field params "content") res)) ∧
  (∀ c m u b e, In (ObsNewRequest c m u b (inr e)) t →
     r = ("", Some e) ∧ count is_request t = 0) ∧
  (∀ req e, In (ObsDo req (inr e)) t →
     r = ("", Some e) ∧ count is_body_call t = 0) ∧
  (∀ c m u b req req' res,
     In (ObsNewRequest c m u b (inl req)) t → In (ObsDo req' res) t →
     req_ctx req' = req_ctx req ∧ Method req' = Method req ∧
     req_URL req' = req_URL req ∧ req_Body req' = req_Body req ∧
     (field params "contentType" = "" → req' = req) ∧
     (field params "contentType" ≠ "" →
      Header req' !! "Content-Type" = Some [field params "contentType"] ∧
      ∀ k, k ≠ "Content-Type" → Header req' !! k = Header req !! k)).
Proof.
  intros Hd Hr.
  assert (Hsent : ∀ req,
    let req' := with_ContentType (field params "contentType") req in
    req_ctx req' = req_ctx req ∧ Method req' = Method req ∧
    req_URL req' = req_URL req ∧ req_Body req' = req_Body req ∧
    (field params "contentType" = "" → req' = req) ∧
    (field params "contentType" ≠ "" →
     Header req' !! "Content-Type" = Some [field params "contentType"] ∧
     ∀ k, k ≠ "Content-Type" → Header req' !! k = Header req !! k)).
  { intros req. unfold with_ContentType.
    destruct (String.eqb_spec (field params "contentType") "") as [->|Hne];
      simpl; repeat split; try done.
    - apply lookup_insert_eq.
    - intros k Hk. by apply lookup_insert_ne. }
  apply (SysHTTPPost_runs _ _ _ _ _ _ Hd) in Hr
    as [(err & -> & ->) | [(req & err & -> & ->)
       | (req & resp & data & err & cerr & -> & ->)]].
  - split; [by eexists|]. split; [|split].
    + intros c m u b e [H|[]]. by injection H as _ _ _ _ ->.
    + intros req e [H|[]]. discriminate H.
    + intros c m u b req req' res _ [H|[]]. discriminate H.
  - split; [by eexists|]. split; [|split].
    + intros c m u b e [H|[H|[]]]; discriminate H.
    + intros req' e [H|[H|[]]]; try discriminate H. by injection H as _ ->.
    + intros c m u b req0 req' res [H|[H|[]]] [H'|[H'|[]]];
        try discriminate H; try discriminate H'.
      injection H as _ _ _ _ <-. injection H' as <- _. apply Hsent.
  - split; [by eexists|]. split; [|split].
    + intros c m u b e [H|[H|[H|[H|[]]]]]; discriminate H.
    + intros req' e [H|[H|[H|[H|[]]]]]; discriminate H.
    + intros c m u b req0 req' res [H|[H|[H|[H|[]]]]] [H'|[H'|[H'|[H'|[]]]]];
        try discriminate H; try discriminate H'.
      injection H as _ _ _ _ <-. injection H' as <- _. apply Hsent.
Qed.

Lemma SysHTTPPost_request_witness :
  runs (SysHTTPPost ctx0 [] post_input) (post_trace resp_ok)
    ("Wrote 5 to http://example.com/p", None) ∧
  head (post_trace resp_ok)
  = Some (ObsNewRequest ctx0 "POST" "http://example.com/p" "hello" (inl req0)) ∧
  Header (Header_Set "Content-Type" "text/plain" req0) !! "Content-Type"
  = Some ["text/plain"].
Proof.
  assert (Hd : Json.Unmarshal ["url"; "content"; "contentType"] post_input
               = (<["url" := "http://example.com/p"]>
                    (<["content" := "hello"]>
                       {["contentType" := "text/plain"]}), None))
    by (vm_compute; reflexivity).
  assert (Hok : runs (SysHTTPPost ctx0 [] post_input) (post_trace resp_ok)
                  ("Wrote 5 to http://example.com/p", None)).
  { apply (SysHTTPPost_runs _ _ _ _ _ _ Hd). right. right.
    by exists req0, resp_ok, "thanks", None, None. }
  split; [exact Hok|]. split; [reflexivity|].
  refine (proj1 (proj2 (proj2 (proj2 (proj2 (proj2
    (proj2 (proj2 (proj2 (SysHTTPPost_request ctx0 [] post_input _ _ _ Hd Hok)))
       ctx0 "POST" "http://example.com/p" "hello" req0
       (Header_Set "Content-Type" "text/plain" req0) (inl resp_ok) _ _))))) _)).
  - left. reflexivity.
  - right. left. reflexivity.
  - vm_compute. discriminate.
Defined.

(** X12: the two HTTP handlers judge the same response differently.  On a
    response whose status is not 200 but at most 399, a 201 or a 302 for
    instance, [SysHTTPGet] returns an error and [SysHTTPPost] returns its
    message without error.  And when reading the body fails, [SysHTTPGet]
    returns that error while [SysHTTPPost] goes by the status alone. *)
Theorem get_post_differ (ctx ctx' : Context) (env env' : list string)
  (inG inP : string) (pG pP : gmap string string) (tG tP : list obs)
  (rG rP : string * option error) (req : Request) (resp : Response) :
  Json.Unmarshal ["url"] inG = (pG, None) →
  Json.Unmarshal ["url"; "content"; "contentType"] inP = (pP, None) →
  runs (SysHTTPGet ctx env inG) tG rG →
  runs (SysHTTPPost ctx' env' inP) tP rP →
  In (ObsHttpGet (field pG "url") (inl resp)) tG →
  In (ObsDo req (inl resp)) tP →
  (StatusCode resp ≠ 200%Z → (StatusCode resp ≤ 399)%Z →
   is_Some rG.2 ∧ rG.1 = "" ∧ rP.2 = None) ∧
  (∀ data e,
     In (ObsReadAll (Body resp) data (Some e)) tG →
     In (ObsReadAll (Body resp) data (Some e)) tP →
     rG = ("", Some e) ∧ StatusCode resp = 200%Z ∧ rP.2 = None).
Proof.
  intros HdG HdP HG HP HinG HinP.
  apply (SysHTTPGet_runs _ _ _ _ _ _ HdG) in HG.
  apply (SysHTTPPost_runs _ _ _ _ _ _ HdP) in HP.
  destruct HP as [(err & -> & ->) | [(req' & err & -> & ->)
                    | (req' & resp' & data & err & cerr & -> & ->)]].
  { destruct HinP as [H|[]]; discriminate H. }
  { destruct HinP as [H|[H|[]]]; discriminate H. }
  destruct HinP as [H|[H|[H|[H|[]]]]]; try discriminate H.
  injection H as _ ->. unfold post_result.
  destruct HG as [(errG & -> & ->) | [(respG & cerrG & Hs & -> & ->)
                    | (respG & dataG & errG & cerrG & Hs & -> & ->)]].
  - destruct HinG as [H|[H|[]]]; discriminate H.
  - destruct HinG as [H|[H|[H|[]]]]; try discriminate H.
    injection H as ->. split.
    + intros _ Hle. destruct (Z.ltb_spec 399 (StatusCode resp)); [lia|].
      by eauto.
    + intros d e [H|[H|[H|[]]]]; discriminate H.
  - destruct HinG as [H|[H|[H|[H|[]]]]]; try discriminate H.
    injection H as ->. split; [done|].
    intros d e [H|[H|[H|[H|[]]]]] _; try discriminate H.
    injection H as _ ->. split; [done|]. split; [done|].
    destruct (Z.ltb_spec 399 (StatusCode resp)); [lia|done].
Qed.

Lemma get_post_differ_witness :
  runs (SysHTTPGet ctx0 [] get_input)
    [ObsLogDebugf "http get %s" ["http://example.com/a"];
     ObsHttpGet "http://example.com/a" (inl resp_created);
     ObsClose (mkBody 4) None]
    ("", Some (Errorf "failed to download http://example.com/a: 201 Created")) ∧
  runs (SysHTTPPost ctx0 [] post_input) (post_trace resp_created)
    ("Wrote 5 to http://example.com/p", None) ∧
  is_Some
    ("", Some (Errorf "failed to download http://example.com/a: 201 Created")).2 ∧
  ("", Some (Errorf "failed to download http://example.com/a: 201 Created")).1
  = "" ∧
  ("Wrote 5 to http://example.com/p", @None error).2 = None.
Proof.
  assert (HdG : Json.Unmarshal ["url"] get_input
                = ({["url" := "http://example.com/a"]}, None))
    by (vm_compute; reflexivity).
  assert (HdP : Json.Unmarshal ["url"; "content"; "contentType"] post_input
                = (<["url" := "http://example.com/p"]>
                     (<["content" := "hello"]>
                        {["contentType" := "text/plain"]}), None))
    by (vm_compute; reflexivity).
  assert (HG : runs (SysHTTPGet ctx0 [] get_input)
    [ObsLogDebugf "http get %s" ["http://example.com/a"];
     ObsHttpGet "http://example.com/a" (inl resp_created);
     ObsClose (mkBody 4) None]
    ("", Some (Errorf "failed to download http://example.com/a: 201 Created"))).
  { apply (SysHTTPGet_runs _ _ _ _ _ _ HdG). right. left.
    exists resp_created, None.
    repeat split; vm_compute; (reflexivity || discriminate). }
  assert (HP : runs (SysHTTPPost ctx0 [] post_input) (post_trace resp_created)
                 ("Wrote 5 to http://example.com/p", None)).
  { apply (SysHTTPPost_runs _ _ _ _ _ _ HdP). right. right.
    by exists req0, resp_created, "thanks", None, None. }
  split; [exact HG|]. split; [exact HP|].
  refine (proj1 (get_post_differ ctx0 ctx0 [] [] _ _ _ _ _ _ _ _
                   (Header_Set "Content-Type" "text/plain" req0) resp_created
                   HdG HdP HG HP _ _) _ _).
  - right. left. vm_compute. reflexivity.
  - right. left. reflexivity.
  - vm_compute. discriminate.
  - vm_compute. discriminate.
Defined.



(** * White space around the input *)

Section blanks.

Import Json.

Lemma append_cons (c : ascii) (s1 s2 : string) :
  String c s1 +:+ s2 = String c (s1 +:+ s2).
Proof. reflexivity. Qed.


Lemma lex_cons st c s :
  lex st (String c s)
  = '(st', ts) ← lex_step st c; rest ← lex st' s; Some (ts ++ rest)%list.
Proof. reflexivity. Qed.

Lemma lex_blank ws : blank ws = true → lex LValue ws = Some [].
Proof.
  induction ws as [|c ws IH]; [done|]. cbn [blank].
  intros [Hc Hws]%andb_prop. rewrite lex_cons. unfold lex_step, lex_begin.
  rewrite Hc. simpl. by rewrite (IH Hws).
Qed.








Lemma parse_blank ws : blank ws = true → parse ws = None.
Proof. intros H. unfold parse. by rewrite lex_blank. Qed.

End blanks.

(** * Decoding, member by member *)

Section members.

Import Json.
Implicit Types (fields : list string) (ms : list (string * json))
  (d : decodeState) (f : string).

Lemma registered_in_table (name : string) (t : Tool) (h : Handler) :
  Tools !! name = Some t → BuiltinFunc t = Some h →
  ∃ fields, In (h, fields) handler_table.
Proof.
  intros Ht Hh.
  destruct (Tools_entry _ _ Ht) as (_ & _ & _ & h' & schema & Hh' & _ & Hin).
  rewrite Hh in Hh'. injection Hh' as <-. eauto.
Qed.

Lemma handler_table_decoding (h : Handler) fields (ctx : Context)
  (env : list string) (a b : string) :
  In (h, fields) handler_table →
  Unmarshal fields a = Unmarshal fields b →
  h ctx env a = h ctx env b.
Proof.
  intros [[-> ->]|[[-> ->]|[[-> ->]|[[-> ->]|[-> ->]]]]]%handler_table_cases Hd.
  - unfold SysRead. by rewrite Hd.
  - unfold SysWrite. by rewrite Hd.
  - unfold SysHTTPGet. by rewrite Hd.
  - unfold SysHTTPPost. by rewrite Hd.
  - unfold SysAbort. by rewrite Hd.
Qed.

Lemma handler_table_error (h : Handler) fields (ctx : Context)
  (env : list string) (input : string) (e : error) :
  In (h, fields) handler_table →
  (Unmarshal fields input).2 = Some e →
  h ctx env input = Ret ("", Some e).
Proof.
  intros [[-> ->]|[[-> ->]|[[-> ->]|[[-> ->]|[-> ->]]]]]%handler_table_cases.
  - apply SysRead_decode_error.
  - apply SysWrite_decode_error.
  - apply SysHTTPGet_decode_error.
  - apply SysHTTPPost_decode_error.
  - apply SysAbort_decode_error.
Qed.



End members.



(** X15: inputs with nothing in them.  On an empty input, or one of white
    space only, every registered handler returns a syntax error and makes no
    call.  An input that is the JSON null is decoded without error, and the
    handler is the same program as on an object without members: all its
    parameters are empty. *)
Theorem empty_inputs (name : string) (t : Tool) (h : Handler)
  (ctx : Context) (env : list string) :
  Tools !! name = Some t →
  BuiltinFunc t = Some h →
  (∀ ws, blank ws = true → fails_without_calls (h ctx env ws) SyntaxError) ∧
  (∀ a b, Json.parse a = Some Json.JNull →
          Json.parse b = Some (Json.JObject []) →
          h ctx env a = h ctx env b).
Proof.
  intros Ht Hh. destruct (registered_in_table _ _ _ Ht Hh) as [fields Hin].
  split.
  - intros ws Hws.
    rewrite (handler_table_error _ _ _ _ _ SyntaxError Hin).
    + apply Ret_fails_without_calls.
    + by rewrite (Unmarshal_malformed _ _ (parse_blank _ Hws)).
  - intros a b Ha Hb. apply (handler_table_decoding _ _ _ _ _ _ Hin).
    unfold Json.Unmarshal. by rewrite Ha, Hb.
Qed.

Lemma empty_inputs_witness :
  fails_without_calls (SysRead ctx0 [] "") SyntaxError ∧
  SysRead ctx0 [] " null" = SysRead ctx0 [] "{}".
Proof.
  assert (Ht : Tools !! "sys.read" = Some read_tool) by reflexivity.
  destruct (empty_inputs "sys.read" read_tool SysRead ctx0 [] Ht eq_refl)
    as [Hblank Hnull].
  split.
  - apply Hblank. reflexivity.
  - apply Hnull; vm_compute; reflexivity.
Defined.



(** * Objects written out, read back *)

Section written_out.

Import Json.

Lemma plain_char_spec (c : ascii) :
  plain_char c = true →
  Ascii.eqb c "\" = false ∧ Ascii.eqb c dquote = false ∧
  (code c <? 32)%N = false ∧ (code c <? 128)%N = true.
Proof.
  unfold plain_char. intros [[[H1 H2]%andb_prop H3]%andb_prop H4]%andb_prop.
  apply negb_true_iff in H3, H4. repeat split; try done.
  apply N.ltb_ge. by apply N.leb_le.
Qed.

Lemma unquoteBytes_plain (s : string) :
  plain s = true → unquoteBytes s = Some s.
Proof.
  induction s as [|c s IH]; [done|]. cbn [plain].
  intros [(H1 & H2 & H3 & H4)%plain_char_spec Hs]%andb_prop.
  cbn [unquoteBytes]. rewrite H1, H2, H3, H4. simpl.
  by rewrite (IH Hs).
Qed.

Lemma lex_one (c : ascii) (t : token) (rest : string) :
  lex_begin c = Some (LValue, [t]) →
  lex LValue (String c rest) = ts ← lex LValue rest; Some (t :: ts).
Proof.
  intros H. rewrite lex_cons. cbn [lex_step]. rewrite H. simpl.
  by destruct (lex LValue rest).
Qed.

Lemma lex_in_string (acc s rest : string) :
  plain s = true →
  lex (LInString acc) (s +:+ String dquote rest)
  = ts ← lex LValue rest; Some (TStr (String.rev_app acc s) :: ts).
Proof.
  revert acc. induction s as [|c s IH]; intros acc.
  - intros _. change ("" +:+ String dquote rest) with (String dquote rest).
    rewrite lex_cons. cbn [lex_step].
    replace (Ascii.eqb dquote dquote) with true by done. simpl.
    by destruct (lex LValue rest).
  - cbn [plain]. intros [(H1 & H2 & H3 & H4)%plain_char_spec Hs]%andb_prop.
    rewrite append_cons, lex_cons. cbn [lex_step]. rewrite H1, H2, H3. simpl.
    rewrite (IH _ Hs). by destruct (lex LValue rest).
Qed.

Lemma lex_quoted (s rest : string) :
  plain s = true →
  lex LValue (quoted s +:+ rest)
  = ts ← lex LValue rest; Some (TStr s :: ts).
Proof.
  intros Hs. unfold quoted. rewrite append_cons, append_assoc, append_cons.
  change ("" +:+ rest) with rest. rewrite lex_cons. cbn [lex_step].
  replace (lex_begin dquote) with (Some (LInString "", @nil token)) by done.
  simpl. rewrite (lex_in_string _ _ _ Hs). simpl.
  by destruct (lex LValue rest).
Qed.

Lemma lex_members (ms : list (string * string)) (rest : string) :
  plain_members ms = true →
  lex LValue (members_text ms +:+ rest)
  = ts ← lex LValue rest; Some (member_tokens ms ++ ts)%list.
Proof.
  induction ms as [|m ms IH].
  { intros _. change (lex LValue rest = ts ← lex LValue rest; Some ts).
    by destruct (lex LValue rest). }
  cbn [plain_members forallb]. intros [[Hk Hv]%andb_prop Hms]%andb_prop.
  cbn [members_text member_tokens]. rewrite !append_assoc.
  rewrite (lex_quoted _ _ Hk). rewrite append_cons.
  change ("" +:+ ?x) with x. rewrite (lex_one ":" TColon) by done.
  rewrite (lex_quoted _ _ Hv).
  destruct ms as [|m' ms].
  - change ("" +:+ rest) with rest. simpl. by destruct (lex LValue rest).
  - rewrite append_assoc, append_cons. change ("" +:+ ?x) with x.
    rewrite (lex_one "," TComma) by done.
    rewrite (IH Hms). by destruct (lex LValue rest).
Qed.

Lemma lex_object_text (ms : list (string * string)) :
  plain_members ms = true →
  lex LValue (object_text ms)
  = Some (TLBrace :: member_tokens ms ++ [TRBrace])%list.
Proof.
  intros Hms. unfold object_text. rewrite append_cons.
  change ("" +:+ ?x) with x. rewrite (lex_one "{" TLBrace) by done.
  by rewrite (lex_members _ _ Hms).
Qed.

Lemma parse_member (m : string * string) (acc : list (string * json))
  (k0 : string) (ts : list token) :
  plain m.1 = true → plain m.2 = true →
  parse_tokens PObjKey [FObj acc k0] (TStr m.1 :: TColon :: TStr m.2 :: ts)
  = parse_tokens PObjNext [FObj ((m.1, JString m.2) :: acc) m.1] ts.
Proof.
  intros Hk Hv.
  cbn [parse_tokens parse_step parse_key parse_value].
  rewrite (unquoteBytes_plain _ Hk). simpl.
  by rewrite (unquoteBytes_plain _ Hv).
Qed.

Lemma parse_member_tokens (ms : list (string * string))
  (acc : list (string * json)) (k0 : string) :
  plain_members ms = true → ms ≠ [] →
  parse_tokens PObjKey [FObj acc k0] (member_tokens ms ++ [TRBrace])
  = Some (JObject (reverse acc ++ string_members ms)).
Proof.
  revert acc k0. induction ms as [|m ms IH]; intros acc k0; [done|].
  cbn [plain_members forallb]. intros [[Hk Hv]%andb_prop Hms]%andb_prop _.
  cbn [member_tokens app]. rewrite (parse_member _ _ _ _ Hk Hv).
  destruct ms as [|m' ms].
  - simpl. by rewrite reverse_cons.
  - change (parse_tokens PObjKey [FObj ((m.1, JString m.2) :: acc) m.1]
              (member_tokens (m' :: ms) ++ [TRBrace])
            = Some (JObject (reverse acc ++ string_members (m :: m' :: ms)))).
    rewrite (IH _ _ Hms) by done.
    by rewrite reverse_cons, <- app_assoc.
Qed.

Lemma parse_object_text (ms : list (string * string)) :
  plain_members ms = true →
  parse (object_text ms) = Some (JObject (string_members ms)).
Proof.
  intros Hms. unfold parse. rewrite (lex_object_text _ Hms). simpl.
  destruct ms as [|m ms]; [done|].
  change (parse_tokens PObjFirst [FObj [] ""]
            (member_tokens (m :: ms) ++ [TRBrace]))
    with (parse_tokens PObjKey [FObj [] ""]
            (member_tokens (m :: ms) ++ [TRBrace])).
  by rewrite (parse_member_tokens _ _ _ Hms).
Qed.

Lemma find_field_exact (fields : list string) (k : string) :
  k ∈ fields → find_field fields k = Some k.
Proof.
  intros Hin. unfold find_field.
  destruct (List.find (String.eqb k) fields) as [f|] eqn:E.
  - apply find_some in E as [_ Heq]. by apply String.eqb_eq in Heq as ->.
  - apply list_elem_of_In in Hin.
    pose proof (find_none _ _ E k Hin) as Hk.
    rewrite String.eqb_refl in Hk. discriminate Hk.
Qed.

Lemma object_string_members (fields : list string)
  (ms : list (string * string)) (d : decodeState) :
  Forall (λ m, m.1 ∈ fields) ms →
  object fields (string_members ms) d
  = {| params := foldr (λ m, <[m.1 := m.2]>) (params d) (reverse ms);
       savedError := savedError d |}.
Proof.
  intros Hall. revert d. induction Hall as [|m ms Hm _ IH]; intros d.
  - by destruct d.
  - unfold object in *. cbn [string_members fmap list_fmap fold_left].
    rewrite IH. unfold member. simpl.
    rewrite (find_field_exact _ _ Hm). simpl.
    by rewrite reverse_cons, foldr_app.
Qed.

Lemma Unmarshal_object_text (fields : list string)
  (ms : list (string * string)) :
  plain_members ms = true →
  Forall (λ m, m.1 ∈ fields) ms →
  Unmarshal fields (object_text ms) = (list_to_map (reverse ms), None).
Proof.
  intros Hms Hall.
  rewrite (Unmarshal_object _ _ _ (parse_object_text _ Hms)).
  by rewrite (object_string_members _ _ _ Hall).
Qed.



End written_out.

(** X17: an object written out is read back as written.  For names and
    values of printable ASCII without double quote or backslash, the names
    all fields of the struct, the text of the object is decoded without
    error, into the map the members make when listed last to first, so the
    last of two members with one name wins; when no name occurs twice every
    member's value is the value of its field. *)
Theorem object_text_decodes (fields : list string)
  (ms : list (string * string)) :
  plain_members ms = true →
  Forall (λ m, m.1 ∈ fields) ms →
  Json.Unmarshal fields (object_text ms) = (list_to_map (reverse ms), None) ∧
  (NoDup ms.*1 →
   ∀ k v, (k, v) ∈ ms →
          field (Json.Unmarshal fields (object_text ms)).1 k = v).
Proof.
  intros Hms Hall. rewrite (Unmarshal_object_text _ _ Hms Hall).
  split; [done|]. intros Hnd k v Hin. unfold field. simpl.
  erewrite elem_of_list_to_map_1; [done| |].
  - by rewrite fmap_reverse, reverse_Permutation.
  - by apply elem_of_reverse.
Qed.

Lemma object_text_decodes_witness :
  Json.Unmarshal ["filename"; "content"]
    (object_text [("content", "a"); ("filename", "f"); ("content", "b")])
  = (list_to_map [("content", "b"); ("filename", "f"); ("content", "a")], None).
Proof.
  apply (object_text_decodes ["filename"; "content"]
           [("content", "a"); ("filename", "f"); ("content", "b")]).
  - reflexivity.
  - repeat constructor.
Defined.

Section written_inputs.

Lemma field_list_to_map_here (k v : string) (ms : list (string * string)) :
  field (list_to_map ((k, v) :: ms)) k = v.
Proof. unfold field. simpl. by rewrite lookup_insert_eq. Qed.

Lemma field_list_to_map_next (k k' v : string) (ms : list (string * string)) :
  k' ≠ k →
  field (list_to_map ((k', v) :: ms)) k = field (list_to_map ms) k.
Proof. intros Hne. unfold field. simpl. by rewrite lookup_insert_ne. Qed.

Lemma plain_members_perm (ms ms' : list (string * string)) :
  ms ≡ₚ ms' → plain_members ms = true → plain_members ms' = true.
Proof.
  unfold plain_members. intros Hp H.
  apply forallb_forall. intros m Hin. rewrite forallb_forall in H.
  apply H. apply list_elem_of_In. rewrite Hp. by apply list_elem_of_In.
Qed.

End written_inputs.

(** X18: a file written is read back, from the texts of the two inputs.
    For a file name F and a content C of printable ASCII without double
    quote or backslash, [SysWrite] on the object with members filename F and
    content C logs the length of C and writes C to F with mode 0644, and
    once that write succeeded [SysRead] on the object with member filename F
    returns C without error, on every file system. *)
Theorem written_text_read_back (ctx ctx' : Context) (env env' : list string)
  (F C : string) (m : gmap string string) (t1 t2 : list obs)
  (r : string * option error) :
  plain F = true → plain C = true →
  runs (SysWrite ctx env (object_text [("filename", F); ("content", C)]))
    t1 ("", None) →
  runs (SysRead ctx' env' (object_text [("filename", F)])) t2 r →
  fs_trace m (t1 ++ t2) →
  t1 = [ObsLogDebugf ("Wrote " +:+ fmt_d (String.length C)
                      +:+ " bytes to file " +:+ F) [];
        ObsWriteFile F C 420 None] ∧
  r = (C, None).
Proof.
  intros HF HC HW HR.
  assert (HdW : Json.Unmarshal ["filename"; "content"]
                  (object_text [("filename", F); ("content", C)])
                = (list_to_map [("content", C); ("filename", F)], None)).
  { apply Unmarshal_object_text; [|repeat constructor].
    unfold plain_members. cbn [forallb fst snd]. by rewrite HF, HC. }
  assert (HdR : Json.Unmarshal ["filename"] (object_text [("filename", F)])
                = (list_to_map [("filename", F)], None)).
  { apply Unmarshal_object_text; [|repeat constructor].
    unfold plain_members. cbn [forallb fst snd]. by rewrite HF. }
  destruct (proj1 (SysWrite_runs _ _ _ _ _ _ HdW) HW) as (err & -> & [= <-]).
  destruct (proj1 (SysRead_runs _ _ _ _ _ _ HdR) HR) as (data & err' & -> & ->).
  clear HW HR.
  rewrite field_list_to_map_here, field_list_to_map_next by done.
  rewrite !field_list_to_map_here. intros Hfs. split; [done|].
  cbn [app fs_trace] in Hfs. destruct Hfs as [Hread _].
  destruct (Hread C) as [-> ->]; [|done]. apply lookup_insert_eq.
Qed.

Lemma written_text_read_back_witness :
  [ObsLogDebugf "Wrote 5 bytes to file /tmp/t.txt" [];
   ObsWriteFile "/tmp/t.txt" "hello" 420 None]
  = [ObsLogDebugf ("Wrote " +:+ fmt_d (String.length "hello")
                   +:+ " bytes to file " +:+ "/tmp/t.txt") [];
     ObsWriteFile "/tmp/t.txt" "hello" 420 None] ∧
  ("hello", @None error) = ("hello", None).
Proof.
  apply (written_text_read_back ctx0 ctx0 [] [] "/tmp/t.txt" "hello" ∅ _
           [ObsLogDebugf "Reading file %s" ["/tmp/t.txt"];
            ObsReadFile "/tmp/t.txt" "hello" None]).
  - reflexivity.
  - reflexivity.
  - apply (SysWrite_runs _ _ _
             (list_to_map [("content", "hello"); ("filename", "/tmp/t.txt")]));
      [vm_compute; reflexivity|].
    exists None. split; vm_compute; reflexivity.
  - apply (SysRead_runs _ _ _ (list_to_map [("filename", "/tmp/t.txt")]));
      [vm_compute; reflexivity|].
    exists "hello", None. split; vm_compute; reflexivity.
  - cbn [app fs_trace]. split; [|done]. intros c.
    rewrite lookup_insert_eq. by intros [= <-].
Defined.

(** X19: the order of the members does not matter.  For a registered tool
    and two objects with the same members in different orders, the names
    distinct and all parameters of the tool's schema, names and values of
    printable ASCII without double quote or backslash, the handler is the
    same program on the texts of both. *)
Theorem member_order_irrelevant (name : string) (t : Tool) (h : Handler)
  (schema : JSONSchema) (ctx : Context) (env : list string)
  (ms ms' : list (string * string)) :
  Tools !! name = Some t →
  BuiltinFunc t = Some h →
  Arguments t = Some schema →
  plain_members ms = true →
  NoDup ms.*1 →
  Forall (λ m, m.1 ∈ schema.*1) ms →
  ms ≡ₚ ms' →
  h ctx env (object_text ms) = h ctx env (object_text ms').
Proof.
  intros Ht Hh Hs Hms Hnd Hall Hp.
  destruct (Tools_entry _ _ Ht) as (_ & _ & _ & h' & schema' & Hh' & Hs' & Hin).
  rewrite Hh in Hh'. rewrite Hs in Hs'.
  injection Hh' as <-. injection Hs' as <-.
  apply (handler_table_decoding _ _ _ _ _ _ Hin).
  rewrite (Unmarshal_object_text _ _ Hms Hall).
  rewrite (Unmarshal_object_text _ ms').
  - f_equal. apply list_to_map_proper.
    + by rewrite fmap_reverse, reverse_Permutation.
    + by rewrite !reverse_Permutation.
  - by apply (plain_members_perm ms).
  - by rewrite <- Hp.
Qed.

Lemma member_order_irrelevant_witness :
  SysWrite ctx0 [] (object_text [("filename", "/tmp/t.txt"); ("content", "hello")])
  = SysWrite ctx0 [] (object_text [("content", "hello"); ("filename", "/tmp/t.txt")]).
Proof.
  apply (member_order_irrelevant "sys.write"
           {| Name := ""; ID := ""; Instructions := "";
              Description := "Write the contents to a file";
              Arguments := Some (ObjectSchema
                ["filename"; "The name of the file to write to";
                 "content"; "The content to write"]);
              BuiltinFunc := Some SysWrite |}
           SysWrite
           (ObjectSchema ["filename"; "The name of the file to write to";
                          "content"; "The content to write"])).
  - reflexivity.
  - reflexivity.
  - reflexivity.
  - reflexivity.
  - apply (bool_decide_unpack _). vm_compute. reflexivity.
  - repeat constructor.
  - apply Permutation_swap.
Defined.

(** X20: the values written in the input reach the calls as they are.  For
    a URL U, a content C, a content type T and a message M of printable
    ASCII without double quote or backslash: [SysAbort] on the object with
    member message M returns the error whose text is the marker, a space and
    M; [SysHTTPGet] on the object with member url U logs U and then gets U;
    [SysHTTPPost] on the object with members url U, content C and
    contentType T first makes a POST request to U with body C, and the
    request it sends is that request with the content type T set, or that
    request itself when T is empty. *)
Theorem arguments_verbatim (ctx : Context) (env : list string)
  (U C T M : string) :
  plain U = true → plain C = true → plain T = true → plain M = true →
  SysAbort ctx env (object_text [("message", M)])
  = Ret ("", Some (Errorf ("ABORT: " +:+ M))) ∧
  (∀ t r, runs (SysHTTPGet ctx env (object_text [("url", U)])) t r →
     ∃ res, take 2 t = [ObsLogDebugf "http get %s" [U]; ObsHttpGet U res]) ∧
  (∀ t r,
     runs (SysHTTPPost ctx env
             (object_text [("url", U); ("content", C); ("contentType", T)]))
       t r →
     ∃ res, head t = Some (ObsNewRequest ctx "POST" U C res) ∧
       ∀ req' res', In (ObsDo req' res') t →
         ∃ req, res = inl req ∧ req' = with_ContentType T req).
Proof.
  intros HU HC HT HM.
  assert (HdA : Json.Unmarshal ["message"] (object_text [("message", M)])
                = (list_to_map [("message", M)], None)).
  { apply Unmarshal_object_text; [|repeat constructor].
    unfold plain_members. cbn [forallb fst snd]. by rewrite HM. }
  assert (HdG : Json.Unmarshal ["url"] (object_text [("url", U)])
                = (list_to_map [("url", U)], None)).
  { apply Unmarshal_object_text; [|repeat constructor].
    unfold plain_members. cbn [forallb fst snd]. by rewrite HU. }
  assert (HdP : Json.Unmarshal ["url"; "content"; "contentType"]
                  (object_text [("url", U); ("content", C); ("contentType", T)])
                = (list_to_map [("contentType", T); ("content", C); ("url", U)],
                   None)).
  { apply Unmarshal_object_text; [|repeat constructor].
    unfold plain_members. cbn [forallb fst snd]. by rewrite HU, HC, HT. }
  split; [|split].
  - unfold SysAbort. rewrite HdA. by rewrite field_list_to_map_here.
  - intros t r H.
    destruct (proj1 (SysHTTPGet_runs _ _ _ _ _ _ HdG) H)
      as [(err & -> & _) | [(resp & cerr & _ & -> & _)
                           | (resp & data & err & cerr & _ & -> & _)]];
      rewrite field_list_to_map_here; eexists; reflexivity.
  - intros t r H.
    pose proof (proj1 (SysHTTPPost_runs _ _ _ _ _ _ HdP) H) as H'.
    cbv zeta in H'.
    rewrite (field_list_to_map_next "url" "contentType"),
      (field_list_to_map_next "url" "content"),
      (field_list_to_map_next "content" "contentType"),
      !field_list_to_map_here in H' by done.
    destruct H' as [(err & -> & _) | [(req & err & -> & _)
                      | (req & resp & data & err & cerr & -> & _)]].
    + eexists. split; [reflexivity|]. intros req' res' [Hin|[]]. discriminate Hin.
    + eexists. split; [reflexivity|].
      intros req' res' [Hin|[Hin|[]]]; [discriminate Hin|].
      injection Hin as <- _. by exists req.
    + eexists. split; [reflexivity|].
      intros req' res' [Hin|[Hin|[Hin|[Hin|[]]]]]; try discriminate Hin.
      injection Hin as <- _. by exists req.
Qed.

Lemma arguments_verbatim_witness :
  SysAbort ctx0 [] (object_text [("message", "stop")])
  = Ret ("", Some (Errorf ("ABORT: " +:+ "stop"))).
Proof.
  apply (arguments_verbatim ctx0 [] "http://example.com/a" "hello"
           "text/plain" "stop"); reflexivity.
Defined.
